(** * ec2-github-runner: the AWS provisioning core ([src/aws.js])

    A shallow embedding of [src/aws.js] and the properties of its
    provisioning and teardown sequences.

    - JavaScript values read from [config.input] are either [undefined] or a
      string; truthiness and template-literal conversion follow the language.
    - The EC2 client is a black box: a [provider] gives the settlement of
      every command, of the wait primitive and the drawn UUID.
    - Asynchronous code runs in a small state-and-exception monad whose state
      records the observable events (commands sent, log lines, outputs) and
      the promises issued and awaited. *)

From Stdlib Require Import String Ascii List Bool Arith Lia.
Import ListNotations.
Local Open Scope string_scope.
Local Open Scope list_scope.

(* ================================================================= *)
(** ** JavaScript values and strings *)

Module Js.

(** The values [config.input] and the provider's results hold in the
    places the code reads: [undefined] or a string. *)
Inductive value : Type :=
| Undefined
| Str (s : string).

(** [if (v)], [!v], [v ? a : b]: [undefined] and [''] are falsy. *)
Definition truthy (v : value) : bool :=
  match v with
  | Undefined => false
  | Str EmptyString => false
  | Str (String _ _) => true
  end.

(** [`${v}`] *)
Definition to_str (v : value) : string :=
  match v with
  | Undefined => "undefined"
  | Str s => s
  end.

(** [v || ''] *)
Definition or_empty (v : value) : value :=
  if truthy v then v else Str EmptyString.

(** [v === undefined] *)
Definition is_undefined (v : value) : bool :=
  match v with
  | Undefined => true
  | Str _ => false
  end.

(** The double quote and the line feed, as one-character strings. *)
Definition dq : string := String (ascii_of_nat 34) EmptyString.
Definition lf : string := String (ascii_of_nat 10) EmptyString.

(** [s.split(sep)] for a one-character separator: always at least one
    piece, [''.split(',')] being [['']]. *)
Fixpoint split (sep : ascii) (s : string) : list string :=
  match s with
  | EmptyString => [EmptyString]
  | String c rest =>
      if Ascii.eqb c sep then EmptyString :: split sep rest
      else match split sep rest with
           | [] => [String c EmptyString]
           | w :: ws => String c w :: ws
           end
  end.

(** [lines.join(sep)] *)
Definition join (sep : string) (lines : list string) : string :=
  String.concat sep lines.

(** [arr.forEach(f)] where [f] pushes onto an accumulator array: the
    accumulator is threaded through the calls from left to right. *)
Definition forEach {A B : Type} (arr : list A) (f : A -> B -> B) (acc : B) : B :=
  fold_left (fun a x => f x a) arr acc.

(** [arr.push(x)] *)
Definition push {A : Type} (arr : list A) (x : A) : list A := arr ++ [x].

(** [arr[i]] *)
Definition index {A : Type} (arr : list A) (i : nat) : option A := nth_error arr i.

End Js.

(* ================================================================= *)
(** ** Configuration ([./config], taken as a parameter) *)

Record config_input : Type := {
  runnerHomeDir : Js.value;
  preRunnerScript : Js.value;
  runAsUser : Js.value;
  runAsService : bool;
  ec2ImageId : Js.value;
  securityGroupId : Js.value;
  iamRoleName : Js.value;
  ec2InstanceType : string;
  subnetId : string;
  ec2InstanceId : Js.value;
  templateId : Js.value;
  fleetId : Js.value
}.

Record github_context : Type := {
  owner : string;
  repo : string
}.

Record config : Type := {
  input : config_input;
  githubContext : github_context
}.

(* ================================================================= *)
(** ** The boot script ([buildUserDataScript]) *)

Module UserData.

Definition shebang : string := "#!/bin/bash".

Definition exec_log : string :=
  "exec > >(tee /var/log/user-data.log|logger -t user-data -s 2>/dev/console) 2>&1".

Definition cd_home (dir : Js.value) : string :=
  "cd " ++ Js.dq ++ Js.to_str dir ++ Js.dq.

Definition mkdir_runner : string := "mkdir actions-runner && cd actions-runner".

Definition write_pre_runner (script : Js.value) : string :=
  "echo " ++ Js.dq ++ Js.to_str script ++ Js.dq ++ " > pre-runner-script.sh".

Definition source_pre_runner : string := "source pre-runner-script.sh".

Definition arch_detect : string :=
  Eval cbv in
    "case $(uname -m) in aarch64) ARCH=" ++ Js.dq ++ "arm64" ++ Js.dq
    ++ " ;; amd64|x86_64) ARCH=" ++ Js.dq ++ "x64" ++ Js.dq
    ++ " ;; esac && export RUNNER_ARCH=${ARCH}".

Definition download : string :=
  "curl -O -L https://github.com/actions/runner/releases/download/v2.313.0/actions-runner-linux-${RUNNER_ARCH}-2.313.0.tar.gz".

Definition unpack : string :=
  "tar xzf ./actions-runner-linux-${RUNNER_ARCH}-2.313.0.tar.gz".

Definition allow_root : string := "export RUNNER_ALLOW_RUNASROOT=1".

Definition register (cfg : config) (githubRegistrationToken label : string) : string :=
  "./config.sh --url https://github.com/" ++ owner (githubContext cfg) ++ "/"
    ++ repo (githubContext cfg) ++ " --token " ++ githubRegistrationToken
    ++ " --labels " ++ label.

Definition chown (user : Js.value) : string :=
  "chown -R " ++ Js.to_str user ++ " .".

Definition svc_install (user : Js.value) : string :=
  "./svc.sh install " ++ Js.to_str (Js.or_empty user).

Definition svc_start : string := "./svc.sh start".

Definition su_prefix (user : Js.value) : string :=
  if Js.truthy user then "su " ++ Js.to_str user ++ " -c" else EmptyString.

Definition run (user : Js.value) : string :=
  su_prefix user ++ " ./run.sh".

Definition buildUserDataScript (cfg : config)
    (githubRegistrationToken label : string) : list string :=
  let userData :=
    if Js.truthy (runnerHomeDir (input cfg)) then
      [ shebang;
        exec_log;
        cd_home (runnerHomeDir (input cfg));
        write_pre_runner (preRunnerScript (input cfg));
        source_pre_runner;
        allow_root;
        register cfg githubRegistrationToken label ]
    else
      [ shebang;
        exec_log;
        mkdir_runner;
        write_pre_runner (preRunnerScript (input cfg));
        source_pre_runner;
        arch_detect;
        download;
        unpack;
        allow_root;
        register cfg githubRegistrationToken label ] in
  let userData :=
    if Js.truthy (runAsUser (input cfg))
    then Js.push userData (chown (runAsUser (input cfg)))
    else userData in
  if runAsService (input cfg) then
    Js.push (Js.push userData (svc_install (runAsUser (input cfg)))) svc_start
  else
    Js.push userData (run (runAsUser (input cfg))).

End UserData.

(* ================================================================= *)
(** ** [Buffer.from(s).toString('base64')] *)

Module Base64.

Definition alphabet : string :=
  "ABCDEFGHIJKLMNOPQRSTUVWXYZabcdefghijklmnopqrstuvwxyz0123456789+/".

Definition digit (n : nat) : ascii :=
  match String.get n alphabet with
  | Some c => c
  | None => "="%char
  end.

Fixpoint encode_bytes (bs : list nat) : string :=
  match bs with
  | [] => EmptyString
  | [a] =>
      String (digit (a / 4)) (String (digit ((a mod 4) * 16)) "==")
  | [a; b] =>
      String (digit (a / 4))
        (String (digit ((a mod 4) * 16 + b / 16))
           (String (digit ((b mod 16) * 4)) "="))
  | a :: b :: c :: rest =>
      String (digit (a / 4))
        (String (digit ((a mod 4) * 16 + b / 16))
           (String (digit ((b mod 16) * 4 + c / 64))
              (String (digit (c mod 64)) (encode_bytes rest))))
  end.

Definition encode (s : string) : string :=
  encode_bytes (map nat_of_ascii (list_ascii_of_string s)).

End Base64.

(* ================================================================= *)
(** ** The EC2 client: commands, results, errors *)

Module Ec2.

Record launch_template_data : Type := {
  ImageId : Js.value;
  UserData : string;
  SecurityGroupIds : list Js.value;
  IamInstanceProfileName : Js.value
}.

Record create_launch_template_input : Type := {
  LaunchTemplateName : string;
  LaunchTemplateData : launch_template_data
}.

Record fleet_override : Type := {
  InstanceType : string;
  SubnetId : string
}.

Record launch_template_specification : Type := {
  LaunchTemplateId : Js.value;
  Version : string
}.

Record launch_template_config : Type := {
  LaunchTemplateSpecification : launch_template_specification;
  Overrides : list fleet_override
}.

Record create_fleet_input : Type := {
  LaunchTemplateConfigs : list launch_template_config;
  AllocationStrategy : string;
  TotalTargetCapacity : nat;
  DefaultTargetCapacityType : string;
  FleetType : string
}.

Inductive command : Type :=
| CreateLaunchTemplateCommand (i : create_launch_template_input)
| CreateFleetCommand (i : create_fleet_input)
| DeleteFleetsCommand (FleetIds : list Js.value)
| DeleteLaunchTemplateCommand (id : Js.value)
| TerminateInstancesCommand (InstanceIds : list Js.value).

(** The fields of a result the code reads; every one may be missing. *)
Record launch_template : Type := {
  ResultLaunchTemplateId : Js.value
}.

Record fleet_instance : Type := {
  InstanceIds : option (list Js.value)
}.

Record response : Type := {
  LaunchTemplate : option launch_template;
  Instances : option (list fleet_instance);
  FleetId : Js.value
}.

(** Input of the wait primitive. *)
Record waiter_configuration : Type := {
  maxWaitTime : nat
}.

Record filter : Type := {
  Name : string;
  Values : list Js.value
}.

Record describe_instances_input : Type := {
  Filters : list filter
}.

End Ec2.

(** A thrown JavaScript error. *)
Record js_error : Type := {
  error_name : string;
  error_message : string
}.

Definition new_Error (msg : string) : js_error :=
  {| error_name := "Error"; error_message := msg |}.

Definition new_TypeError (msg : string) : js_error :=
  {| error_name := "TypeError"; error_message := msg |}.

(** How a call or a promise settles. *)
Inductive outcome (A : Type) : Type :=
| Return (a : A)
| Throw (e : js_error).

Arguments Return {A} a.
Arguments Throw {A} e.

(** The provider: the settlement of each command, of the wait primitive,
    and the UUID that [v4()] draws. No operation sends the same command
    twice in one run, so a settlement per command covers every run. *)
Record provider : Type := {
  ec2_send : Ec2.command -> outcome Ec2.response;
  waitUntilInstanceRunning :
    Ec2.waiter_configuration -> Ec2.describe_instances_input -> outcome unit;
  v4 : string
}.

(* ================================================================= *)
(** ** Observable events and the run-time state *)

Inductive event : Type :=
| Send (c : Ec2.command)
| WaitRunning (w : Ec2.waiter_configuration) (i : Ec2.describe_instances_input)
| Info (msg : string)
| ErrorLog (msg : string)
| SetOutput (name : string) (v : Js.value)
| ConsoleLog (r : Ec2.response).

(** A promise returned by [ec2.send]: its number and how it settles. *)
Record promise : Type := {
  pid : nat;
  settlement : outcome Ec2.response
}.

Record state : Type := {
  events : list event;
  issued : list promise;
  awaited : list nat
}.

Definition initial : state :=
  {| events := []; issued := []; awaited := [] |}.

(** The commands sent to the provider, in order. *)
Fixpoint sent (evs : list event) : list Ec2.command :=
  match evs with
  | [] => []
  | Send c :: rest => c :: sent rest
  | _ :: rest => sent rest
  end.

(** Rejections of promises nobody awaited: they reach no caller. *)
Definition unhandled (st : state) : list js_error :=
  flat_map
    (fun p =>
       match settlement p with
       | Throw e => if existsb (Nat.eqb (pid p)) (awaited st) then [] else [e]
       | Return _ => []
       end)
    (issued st).

(* ================================================================= *)
(** ** The monad of asynchronous code *)

Definition M (A : Type) : Type := state -> outcome A * state.

Definition ret {A : Type} (a : A) : M A := fun st => (Return a, st).

Definition throw {A : Type} (e : js_error) : M A := fun st => (Throw e, st).

Definition bind {A B : Type} (m : M A) (k : A -> M B) : M B :=
  fun st =>
    match m st with
    | (Return a, st') => k a st'
    | (Throw e, st') => (Throw e, st')
    end.

(** [try { m } catch (error) { h error }] *)
Definition try_catch {A : Type} (m : M A) (h : js_error -> M A) : M A :=
  fun st =>
    match m st with
    | (Return a, st') => (Return a, st')
    | (Throw e, st') => h e st'
    end.

Notation "x <- m ;; k" := (bind m (fun x => k))
  (at level 61, m at next level, right associativity).
Notation "m ;; k" := (bind m (fun _ => k))
  (at level 61, right associativity).

Definition emit (ev : event) : M unit :=
  fun st =>
    (Return tt,
     {| events := events st ++ [ev]; issued := issued st; awaited := awaited st |}).

Definition core_info (msg : string) : M unit := emit (Info msg).
Definition core_error (msg : string) : M unit := emit (ErrorLog msg).
Definition core_setOutput (name : string) (v : Js.value) : M unit :=
  emit (SetOutput name v).
Definition console_log (r : Ec2.response) : M unit := emit (ConsoleLog r).

Definition result_of {A : Type} (r : outcome A * state) : outcome A := fst r.
Definition trace_of {A : Type} (r : outcome A * state) : list event := events (snd r).

(* ================================================================= *)
(** ** The operations of [src/aws.js] *)

Section Aws.

Variable cfg : config.
Variable aws : provider.

(** [ec2.send(command)]: the request is issued and a promise comes back;
    nothing is thrown here. *)
Definition send (c : Ec2.command) : M promise :=
  fun st =>
    let p := {| pid := length (issued st); settlement := ec2_send aws c |} in
    (Return p,
     {| events := events st ++ [Send c];
        issued := issued st ++ [p];
        awaited := awaited st |}).

(** [await p]: the promise's value, or its rejection thrown. *)
Definition await (p : promise) : M Ec2.response :=
  fun st =>
    (settlement p,
     {| events := events st; issued := issued st; awaited := awaited st ++ [pid p] |}).

(** [await waitUntilInstanceRunning(params, input)] *)
Definition await_waitUntilInstanceRunning
    (w : Ec2.waiter_configuration) (i : Ec2.describe_instances_input) : M unit :=
  fun st =>
    (waitUntilInstanceRunning aws w i,
     {| events := events st ++ [WaitRunning w i];
        issued := issued st;
        awaited := awaited st |}).

Definition buildUserDataScript (githubRegistrationToken label : string) : list string :=
  UserData.buildUserDataScript cfg githubRegistrationToken label.

Definition createLaunchTemplateInput (label githubRegistrationToken : string)
  : Ec2.create_launch_template_input :=
  let userData := buildUserDataScript githubRegistrationToken label in
  {| Ec2.LaunchTemplateName := v4 aws;
     Ec2.LaunchTemplateData :=
       {| Ec2.ImageId := ec2ImageId (input cfg);
          Ec2.UserData := Base64.encode (Js.join Js.lf userData);
          Ec2.SecurityGroupIds := [securityGroupId (input cfg)];
          Ec2.IamInstanceProfileName := iamRoleName (input cfg) |} |}.

(** [result.LaunchTemplate?.LaunchTemplateId] *)
Definition optional_LaunchTemplateId (result : Ec2.response) : Js.value :=
  match Ec2.LaunchTemplate result with
  | None => Js.Undefined
  | Some lt => Ec2.ResultLaunchTemplateId lt
  end.

Definition createLaunchTemplate (label githubRegistrationToken : string) : M Js.value :=
  let command := Ec2.CreateLaunchTemplateCommand
                   (createLaunchTemplateInput label githubRegistrationToken) in
  p <- send command ;;
  result <- await p ;;
  core_setOutput "template-id" (optional_LaunchTemplateId result) ;;
  console_log result ;;
  ret (optional_LaunchTemplateId result).

(** The two nested [forEach] loops of [startEc2Instance]. *)
Definition instancesOverrides : list Ec2.fleet_override :=
  let instanceTypes := Js.split ","%char (ec2InstanceType (input cfg)) in
  let subnets := Js.split ","%char (subnetId (input cfg)) in
  Js.forEach instanceTypes
    (fun type acc =>
       Js.forEach subnets
         (fun subnet acc' =>
            Js.push acc' {| Ec2.InstanceType := type; Ec2.SubnetId := subnet |})
         acc)
    [].

Definition createFleetInput (templateId : Js.value) : Ec2.create_fleet_input :=
  {| Ec2.LaunchTemplateConfigs :=
       [ {| Ec2.LaunchTemplateSpecification :=
              {| Ec2.LaunchTemplateId := templateId; Ec2.Version := "$Latest" |};
            Ec2.Overrides := instancesOverrides |} ];
     Ec2.AllocationStrategy := "price-capacity-optimized";
     Ec2.TotalTargetCapacity := 1;
     Ec2.DefaultTargetCapacityType := "spot";
     Ec2.FleetType := "instant" |}.

(** [result.Instances[0].InstanceIds[0]]: reading a property of
    [undefined] throws a [TypeError]; an index out of range gives
    [undefined]. *)
Definition first_instance_id (result : Ec2.response) : M Js.value :=
  match Ec2.Instances result with
  | None => throw (new_TypeError "Cannot read properties of undefined (reading '0')")
  | Some instances =>
      match Js.index instances 0 with
      | None =>
          throw (new_TypeError "Cannot read properties of undefined (reading 'InstanceIds')")
      | Some instance =>
          match Ec2.InstanceIds instance with
          | None =>
              throw (new_TypeError "Cannot read properties of undefined (reading '0')")
          | Some ids =>
              match Js.index ids 0 with
              | None => ret Js.Undefined
              | Some id => ret id
              end
          end
      end
  end.

Definition startEc2Instance (label githubRegistrationToken : string) : M Js.value :=
  templateId <- createLaunchTemplate label githubRegistrationToken ;;
  if Js.is_undefined templateId then
    throw (new_Error "failed to create launch template")
  else
    let input := createFleetInput templateId in
    try_catch
      (let command := Ec2.CreateFleetCommand input in
       p <- send command ;;
       result <- await p ;;
       ec2InstanceId <- first_instance_id result ;;
       core_setOutput "fleet-id" (Ec2.FleetId result) ;;
       core_info ("AWS EC2 instance " ++ Js.to_str ec2InstanceId ++ " is started") ;;
       ret ec2InstanceId)
      (fun error =>
         core_error "AWS EC2 instance starting error" ;;
         throw error).

(** The promise of [ec2.send(command)] is dropped, not awaited. *)
Definition deleteFleet : M unit :=
  let fleetId := fleetId (input cfg) in
  if negb (Js.truthy fleetId) then
    core_info "do not have fleet id. not delete anything" ;;
    ret tt
  else
    let command := Ec2.DeleteFleetsCommand [fleetId] in
    _ <- send command ;;
    core_info "deleted ec2 fleet".

Definition deleteLaunchTemplate : M unit :=
  let templateId := templateId (input cfg) in
  if negb (Js.truthy templateId) then
    core_info "do not have template id. not delete anything" ;;
    ret tt
  else
    let command := Ec2.DeleteLaunchTemplateCommand templateId in
    p <- send command ;;
    _ <- await p ;;
    core_info "delete launch template".

Definition terminateEc2Instance : M unit :=
  let params := [ec2InstanceId (input cfg)] in
  try_catch
    (p <- send (Ec2.TerminateInstancesCommand params) ;;
     _ <- await p ;;
     core_info ("AWS EC2 instance " ++ Js.to_str (ec2InstanceId (input cfg))
                ++ " is terminated") ;;
     deleteLaunchTemplate ;;
     deleteFleet ;;
     ret tt)
    (fun error =>
       core_error ("AWS EC2 instance " ++ Js.to_str (ec2InstanceId (input cfg))
                   ++ " termination error") ;;
       throw error).

Definition waitForInstanceRunning (ec2InstanceId : Js.value) : M unit :=
  try_catch
    (core_info ("Checking for instance " ++ Js.to_str ec2InstanceId
                ++ " to be up and running") ;;
     await_waitUntilInstanceRunning
       {| Ec2.maxWaitTime := 300 |}
       {| Ec2.Filters :=
            [ {| Ec2.Name := "instance-id"; Ec2.Values := [ec2InstanceId] |} ] |} ;;
     core_info ("AWS EC2 instance " ++ Js.to_str ec2InstanceId
                ++ " is up and running") ;;
     ret tt)
    (fun error =>
       core_error ("AWS EC2 instance " ++ Js.to_str ec2InstanceId
                   ++ " initialization error") ;;
       throw error).

End Aws.

(* ================================================================= *)
(** ** Vocabulary of the properties *)

(** The commands of the teardown, as [terminateEc2Instance] and the two
    delete helpers build them from [config.input]. *)
Definition terminate_command (cfg : config) : Ec2.command :=
  Ec2.TerminateInstancesCommand [ec2InstanceId (input cfg)].

Definition delete_template_command (cfg : config) : Ec2.command :=
  Ec2.DeleteLaunchTemplateCommand (templateId (input cfg)).

Definition delete_fleet_command (cfg : config) : Ec2.command :=
  Ec2.DeleteFleetsCommand [fleetId (input cfg)].

Definition terminated_notice (cfg : config) : string :=
  "AWS EC2 instance " ++ Js.to_str (ec2InstanceId (input cfg)) ++ " is terminated".

Definition termination_error_notice (cfg : config) : string :=
  "AWS EC2 instance " ++ Js.to_str (ec2InstanceId (input cfg)) ++ " termination error".

Definition no_template_notice : string := "do not have template id. not delete anything".
Definition no_fleet_notice : string := "do not have fleet id. not delete anything".

(** The wait request of [waitForInstanceRunning] for an instance id. *)
Definition wait_configuration : Ec2.waiter_configuration :=
  {| Ec2.maxWaitTime := 300 |}.

Definition wait_input (ec2InstanceId : Js.value) : Ec2.describe_instances_input :=
  {| Ec2.Filters := [ {| Ec2.Name := "instance-id"; Ec2.Values := [ec2InstanceId] |} ] |}.

(** The wait requests among the events, in order. *)
Fixpoint waits (evs : list event)
  : list (Ec2.waiter_configuration * Ec2.describe_instances_input) :=
  match evs with
  | [] => []
  | WaitRunning w i :: rest => (w, i) :: waits rest
  | _ :: rest => waits rest
  end.

(** The cartesian product of instance types and subnets, instance types
    outermost: the override list the specification describes. *)
Definition cartesian_product (types subnets : list string) : list Ec2.fleet_override :=
  flat_map
    (fun type =>
       map (fun subnet => {| Ec2.InstanceType := type; Ec2.SubnetId := subnet |}) subnets)
    types.

(** The configured lists, as [startEc2Instance] splits them. *)
Definition instanceTypes (cfg : config) : list string :=
  Js.split ","%char (ec2InstanceType (input cfg)).

Definition subnets (cfg : config) : list string :=
  Js.split ","%char (subnetId (input cfg)).

(** The two characters the script texts below cannot hold in a literal. *)
Definition double_quote : string := String "034"%char EmptyString.
Definition line_feed : string := String "010"%char EmptyString.

(** Shapes of boot-script entries, recognised by the command they start
    with. *)
Definition count (p : string -> bool) (script : list string) : nat :=
  length (filter p script).

Definition is_arch_detect (line : string) : bool :=
  String.prefix "case $(uname -m) in" line.

Definition is_download (line : string) : bool :=
  String.prefix "curl " line.

Definition is_unpack (line : string) : bool :=
  String.prefix "tar " line.

Definition is_register (line : string) : bool :=
  String.prefix "./config.sh" line.

(** A direct run command: [./run.sh], bare (with or without the blank the
    template leaves in front) or under [su]. *)
Definition is_run_command (line : string) : bool :=
  String.prefix "./run.sh" line || String.prefix " ./run.sh" line
  || String.prefix "su " line.

(** More shapes of boot-script entries. *)
Definition is_chown (line : string) : bool :=
  String.prefix "chown " line.

Definition is_service (line : string) : bool :=
  String.prefix "./svc.sh " line.

Definition is_su (line : string) : bool :=
  String.prefix "su " line.

Definition is_cd (line : string) : bool :=
  String.prefix "cd " line.

Definition is_mkdir (line : string) : bool :=
  String.prefix "mkdir " line.

Definition is_allow_root (line : string) : bool :=
  String.prefix "export RUNNER_ALLOW_RUNASROOT=1" line.

(** Whether, and how often, a character occurs in a string. *)
Fixpoint has_char (c : ascii) (s : string) : bool :=
  match s with
  | EmptyString => false
  | String x rest => Ascii.eqb x c || has_char c rest
  end.

Fixpoint occurrences (c : ascii) (s : string) : nat :=
  match s with
  | EmptyString => 0
  | String x rest => (if Ascii.eqb x c then 1 else 0) + occurrences c rest
  end.

(** Reading base64 back, to state that the encoding loses nothing: the
    value of a digit is its position in the alphabet, four digits give
    three bytes, and [=] pads the last group. *)
Fixpoint position (c : ascii) (s : string) : nat :=
  match s with
  | EmptyString => 0
  | String x rest => if Ascii.eqb x c then 0 else S (position c rest)
  end.

Definition base64_value (c : ascii) : nat := position c Base64.alphabet.

Fixpoint base64_decode_chars (cs : list ascii) : list nat :=
  match cs with
  | c1 :: c2 :: c3 :: c4 :: rest =>
      let v1 := base64_value c1 in
      let v2 := base64_value c2 in
      let v3 := base64_value c3 in
      let v4 := base64_value c4 in
      if Ascii.eqb c3 "="%char then [v1 * 4 + v2 / 16]
      else if Ascii.eqb c4 "="%char then
        [v1 * 4 + v2 / 16; (v2 mod 16) * 16 + v3 / 4]
      else
        (v1 * 4 + v2 / 16) :: ((v2 mod 16) * 16 + v3 / 4) :: ((v3 mod 4) * 64 + v4)
          :: base64_decode_chars rest
  | _ => []
  end.

Definition base64_decode (s : string) : string :=
  string_of_list_ascii (map ascii_of_nat (base64_decode_chars (list_ascii_of_string s))).

(** The events that set a given output. *)
Definition sets_output (name : string) (ev : event) : bool :=
  match ev with
  | SetOutput n _ => String.eqb n name
  | _ => false
  end.

(** The error lines among the events, in order. *)
Fixpoint error_lines (evs : list event) : list string :=
  match evs with
  | [] => []
  | ErrorLog m :: rest => m :: error_lines rest
  | _ :: rest => error_lines rest
  end.

(** The commands and log lines of the provisioning. *)
Definition create_template_command (cfg : config) (aws : provider)
    (label githubRegistrationToken : string) : Ec2.command :=
  Ec2.CreateLaunchTemplateCommand
    (createLaunchTemplateInput cfg aws label githubRegistrationToken).

Definition create_fleet_command (cfg : config) (templateId : Js.value) : Ec2.command :=
  Ec2.CreateFleetCommand (createFleetInput cfg templateId).

Definition started_notice (ec2InstanceId : Js.value) : string :=
  "AWS EC2 instance " ++ Js.to_str ec2InstanceId ++ " is started".

Definition starting_error_notice : string := "AWS EC2 instance starting error".

(* ================================================================= *)
(** ** Concrete configurations and providers used as test inputs *)

Module Fixtures.

Definition empty_result : Ec2.response :=
  {| Ec2.LaunchTemplate := None; Ec2.Instances := None; Ec2.FleetId := Js.Undefined |}.

Definition boom : js_error := new_Error "boom".

Definition base_input : config_input :=
  {| runnerHomeDir := Js.Str EmptyString;
     preRunnerScript := Js.Str "echo hi";
     runAsUser := Js.Str EmptyString;
     runAsService := false;
     ec2ImageId := Js.Str "ami-1";
     securityGroupId := Js.Str "sg-1";
     iamRoleName := Js.Str "role";
     ec2InstanceType := "t3.micro,t3.small";
     subnetId := "subnet-a,subnet-b";
     ec2InstanceId := Js.Str "i-1";
     templateId := Js.Str "lt-1";
     fleetId := Js.Str "fleet-1" |}.

Definition gh : github_context := {| owner := "o"; repo := "r" |}.

(** Teardown with both identifiers present. *)
Definition cfg_ids : config := {| input := base_input; githubContext := gh |}.

(** Teardown with neither identifier. *)
Definition cfg_no_ids : config :=
  {| input :=
       {| runnerHomeDir := Js.Str EmptyString;
          preRunnerScript := Js.Str "echo hi";
          runAsUser := Js.Str EmptyString;
          runAsService := false;
          ec2ImageId := Js.Str "ami-1";
          securityGroupId := Js.Str "sg-1";
          iamRoleName := Js.Str "role";
          ec2InstanceType := "t3.micro,t3.small";
          subnetId := "subnet-a,subnet-b";
          ec2InstanceId := Js.Str "i-1";
          templateId := Js.Str EmptyString;
          fleetId := Js.Undefined |};
     githubContext := gh |}.

(** Pre-installed runner, run as a service under a user. *)
Definition cfg_home_service : config :=
  {| input :=
       {| runnerHomeDir := Js.Str "/opt/runner";
          preRunnerScript := Js.Str "echo hi";
          runAsUser := Js.Str "ubuntu";
          runAsService := true;
          ec2ImageId := Js.Str "ami-1";
          securityGroupId := Js.Str "sg-1";
          iamRoleName := Js.Str "role";
          ec2InstanceType := "t3.micro";
          subnetId := "subnet-a";
          ec2InstanceId := Js.Undefined;
          templateId := Js.Undefined;
          fleetId := Js.Undefined |};
     githubContext := gh |}.

(** Downloaded runner, run directly under a user. *)
Definition cfg_fresh_user : config :=
  {| input :=
       {| runnerHomeDir := Js.Undefined;
          preRunnerScript := Js.Str "echo hi";
          runAsUser := Js.Str "ubuntu";
          runAsService := false;
          ec2ImageId := Js.Str "ami-1";
          securityGroupId := Js.Str "sg-1";
          iamRoleName := Js.Str "role";
          ec2InstanceType := "t3.micro";
          subnetId := "subnet-a";
          ec2InstanceId := Js.Undefined;
          templateId := Js.Undefined;
          fleetId := Js.Undefined |};
     githubContext := gh |}.

Definition all_ok : provider :=
  {| ec2_send := fun _ => Return empty_result;
     waitUntilInstanceRunning := fun _ _ => Return tt;
     v4 := "uuid" |}.

Definition terminate_fails : provider :=
  {| ec2_send := fun c =>
       match c with
       | Ec2.TerminateInstancesCommand _ => Throw boom
       | _ => Return empty_result
       end;
     waitUntilInstanceRunning := fun _ _ => Return tt;
     v4 := "uuid" |}.

Definition template_delete_fails : provider :=
  {| ec2_send := fun c =>
       match c with
       | Ec2.DeleteLaunchTemplateCommand _ => Throw boom
       | _ => Return empty_result
       end;
     waitUntilInstanceRunning := fun _ _ => Return tt;
     v4 := "uuid" |}.

Definition fleet_delete_fails : provider :=
  {| ec2_send := fun c =>
       match c with
       | Ec2.DeleteFleetsCommand _ => Throw boom
       | _ => Return empty_result
       end;
     waitUntilInstanceRunning := fun _ _ => Return tt;
     v4 := "uuid" |}.

(** Answers of the provider to the two create commands. *)
Definition created_template : Ec2.response :=
  {| Ec2.LaunchTemplate := Some {| Ec2.ResultLaunchTemplateId := Js.Str "lt-9" |};
     Ec2.Instances := None;
     Ec2.FleetId := Js.Undefined |}.


Definition fleet_with_empty_id_list : Ec2.response :=
  {| Ec2.LaunchTemplate := None;
     Ec2.Instances := Some [ {| Ec2.InstanceIds := Some [] |} ];
     Ec2.FleetId := Js.Str "fleet-9" |}.

Definition fleet_with_no_instance : Ec2.response :=
  {| Ec2.LaunchTemplate := None;
     Ec2.Instances := Some [];
     Ec2.FleetId := Js.Str "fleet-9" |}.


(** The template is created, the fleet request is rejected. *)
Definition fleet_create_fails : provider :=
  {| ec2_send := fun c =>
       match c with
       | Ec2.CreateLaunchTemplateCommand _ =>
           Return created_template
       | Ec2.CreateFleetCommand _ => Throw boom
       | _ => Return empty_result
       end;
     waitUntilInstanceRunning := fun _ _ => Return tt;
     v4 := "uuid" |}.

(** The fleet answers with an instance entry that holds no id. *)
Definition fleet_without_ids : provider :=
  {| ec2_send := fun c =>
       match c with
       | Ec2.CreateLaunchTemplateCommand _ =>
           Return created_template
       | Ec2.CreateFleetCommand _ =>
           Return fleet_with_empty_id_list
       | _ => Return empty_result
       end;
     waitUntilInstanceRunning := fun _ _ => Return tt;
     v4 := "uuid" |}.

(** The fleet answers with no instance at all. *)
Definition fleet_without_instances : provider :=
  {| ec2_send := fun c =>
       match c with
       | Ec2.CreateLaunchTemplateCommand _ =>
           Return created_template
       | Ec2.CreateFleetCommand _ =>
           Return fleet_with_no_instance
       | _ => Return empty_result
       end;
     waitUntilInstanceRunning := fun _ _ => Return tt;
     v4 := "uuid" |}.

End Fixtures.

(* ================================================================= *)
(** ** The embedding on concrete inputs *)

Example split_two : Js.split ","%char "t3.micro,t3.small" = ["t3.micro"; "t3.small"].
Proof. reflexivity. Qed.

Example split_empty : Js.split ","%char EmptyString = [EmptyString].
Proof. reflexivity. Qed.

Example split_edges : Js.split ","%char ",a," = [EmptyString; "a"; EmptyString].
Proof. reflexivity. Qed.

Example base64_vectors :
  Base64.encode "Man" = "TWFu" /\ Base64.encode "Ma" = "TWE=" /\
  Base64.encode "M" = "TQ==" /\ Base64.encode EmptyString = EmptyString.
Proof. repeat split. Qed.

Example script_fresh_user :
  buildUserDataScript Fixtures.cfg_fresh_user "TOKEN" "label" =
    [ UserData.shebang;
      UserData.exec_log;
      "mkdir actions-runner && cd actions-runner";
      UserData.write_pre_runner (Js.Str "echo hi");
      "source pre-runner-script.sh";
      UserData.arch_detect;
      UserData.download;
      UserData.unpack;
      "export RUNNER_ALLOW_RUNASROOT=1";
      "./config.sh --url https://github.com/o/r --token TOKEN --labels label";
      "chown -R ubuntu .";
      "su ubuntu -c ./run.sh" ].
Proof. reflexivity. Qed.

Example script_home_service :
  buildUserDataScript Fixtures.cfg_home_service "TOKEN" "label" =
    [ UserData.shebang;
      UserData.exec_log;
      UserData.cd_home (Js.Str "/opt/runner");
      UserData.write_pre_runner (Js.Str "echo hi");
      "source pre-runner-script.sh";
      "export RUNNER_ALLOW_RUNASROOT=1";
      "./config.sh --url https://github.com/o/r --token TOKEN --labels label";
      "chown -R ubuntu .";
      "./svc.sh install ubuntu";
      "./svc.sh start" ].
Proof. reflexivity. Qed.

Example script_plain_run :
  last (buildUserDataScript Fixtures.cfg_ids "TOKEN" "label") EmptyString = " ./run.sh".
Proof. reflexivity. Qed.

Example teardown_all_ok :
  terminateEc2Instance Fixtures.cfg_ids Fixtures.all_ok initial =
    (Return tt,
     {| events :=
          [ Send (Ec2.TerminateInstancesCommand [Js.Str "i-1"]);
            Info "AWS EC2 instance i-1 is terminated";
            Send (Ec2.DeleteLaunchTemplateCommand (Js.Str "lt-1"));
            Info "delete launch template";
            Send (Ec2.DeleteFleetsCommand [Js.Str "fleet-1"]);
            Info "deleted ec2 fleet" ];
        issued :=
          [ {| pid := 0; settlement := Return Fixtures.empty_result |};
            {| pid := 1; settlement := Return Fixtures.empty_result |};
            {| pid := 2; settlement := Return Fixtures.empty_result |} ];
        awaited := [0; 1] |}).
Proof. reflexivity. Qed.

(* ================================================================= *)
(** ** Teardown: [terminateEc2Instance], [deleteLaunchTemplate], [deleteFleet] *)

Ltac unfold_run :=
  unfold terminateEc2Instance, deleteLaunchTemplate, deleteFleet,
    waitForInstanceRunning, await_waitUntilInstanceRunning,
    startEc2Instance, createLaunchTemplate, first_instance_id,
    try_catch, bind, send, await, core_info, core_error, core_setOutput,
    console_log, emit, ret, throw, result_of, trace_of.

Ltac unfold_teardown_vocabulary :=
  unfold terminate_command, delete_template_command, delete_fleet_command,
    terminated_notice, termination_error_notice, no_template_notice,
    no_fleet_notice in *.

Section Teardown.

Variable cfg : config.
Variable aws : provider.

(** [deleteFleet] returns normally whatever the provider answers. *)
Lemma deleteFleet_never_throws (st : state) :
  result_of (deleteFleet cfg aws st) = Return tt.
Proof.
  unfold_run.
  destruct (Js.truthy (fleetId (input cfg))); reflexivity.
Qed.

(** With a fleet id, [deleteFleet] issues the delete and leaves its promise
    unawaited. *)
Lemma deleteFleet_issues_unawaited (st : state) :
  Js.truthy (fleetId (input cfg)) = true ->
  let st' := snd (deleteFleet cfg aws st) in
  events st' = events st ++ [Send (delete_fleet_command cfg); Info "deleted ec2 fleet"] /\
  issued st' = issued st ++ [ {| pid := length (issued st);
                                 settlement := ec2_send aws (delete_fleet_command cfg) |} ] /\
  awaited st' = awaited st.
Proof.
  intros Hid. unfold_run. rewrite Hid. cbn.
  rewrite <- app_assoc. repeat split.
Qed.

(** Without an identifier a delete helper only logs its notice. *)
Lemma deleteLaunchTemplate_noop (st : state) :
  Js.truthy (templateId (input cfg)) = false ->
  deleteLaunchTemplate cfg aws st =
    (Return tt,
     {| events := events st ++ [Info no_template_notice];
        issued := issued st;
        awaited := awaited st |}).
Proof.
  intros Hid. unfold_run. rewrite Hid. reflexivity.
Qed.

Lemma deleteFleet_noop (st : state) :
  Js.truthy (fleetId (input cfg)) = false ->
  deleteFleet cfg aws st =
    (Return tt,
     {| events := events st ++ [Info no_fleet_notice];
        issued := issued st;
        awaited := awaited st |}).
Proof.
  intros Hid. unfold_run. rewrite Hid. reflexivity.
Qed.

(** C6: when the terminate call fails, neither delete helper runs: the
    only command sent is the terminate command, the failure is logged and
    the same error reaches the caller. *)
Theorem terminate_failure_aborts (e : js_error) :
  ec2_send aws (terminate_command cfg) = Throw e ->
  result_of (terminateEc2Instance cfg aws initial) = Throw e /\
  trace_of (terminateEc2Instance cfg aws initial) =
    [ Send (terminate_command cfg); ErrorLog (termination_error_notice cfg) ] /\
  sent (trace_of (terminateEc2Instance cfg aws initial)) = [terminate_command cfg] /\
  ~ In (Send (delete_template_command cfg))
       (trace_of (terminateEc2Instance cfg aws initial)) /\
  (forall ids, ~ In (Send (Ec2.DeleteFleetsCommand ids))
                    (trace_of (terminateEc2Instance cfg aws initial))).
Proof.
  intros Hterm. unfold_teardown_vocabulary. unfold_run. cbn.
  rewrite Hterm. cbn.
  repeat split.
  - intros [H | [H | []]]; discriminate H.
  - intros ids [H | [H | []]]; discriminate H.
Qed.

(** C1, as the code has it: when the terminate call succeeds and the
    launch-template delete is rejected, the error reaches the caller and
    the teardown stops there; the fleet delete is not sent. *)
Theorem template_delete_failure_stops_teardown (r : Ec2.response) (e : js_error) :
  ec2_send aws (terminate_command cfg) = Return r ->
  Js.truthy (templateId (input cfg)) = true ->
  ec2_send aws (delete_template_command cfg) = Throw e ->
  result_of (terminateEc2Instance cfg aws initial) = Throw e /\
  sent (trace_of (terminateEc2Instance cfg aws initial)) =
    [terminate_command cfg; delete_template_command cfg] /\
  (forall ids, ~ In (Send (Ec2.DeleteFleetsCommand ids))
                    (trace_of (terminateEc2Instance cfg aws initial))).
Proof.
  intros Hterm Hid Hdel. unfold_teardown_vocabulary. unfold_run. cbn.
  rewrite Hterm. cbn. rewrite Hid. cbn. rewrite Hdel. cbn.
  repeat split.
  intros ids [H | [H | [H | [H | []]]]]; discriminate H.
Qed.

(** C5: with neither a template id nor a fleet id, the terminate command is
    the only command the teardown sends; each delete helper logs one notice
    and returns without sending anything; and after a successful terminate
    the teardown's events are the terminate call, its log line and the two
    notices. *)
Theorem teardown_without_ids :
  Js.truthy (templateId (input cfg)) = false ->
  Js.truthy (fleetId (input cfg)) = false ->
  sent (trace_of (terminateEc2Instance cfg aws initial)) = [terminate_command cfg] /\
  (forall st,
      result_of (deleteLaunchTemplate cfg aws st) = Return tt /\
      trace_of (deleteLaunchTemplate cfg aws st) = events st ++ [Info no_template_notice] /\
      issued (snd (deleteLaunchTemplate cfg aws st)) = issued st) /\
  (forall st,
      result_of (deleteFleet cfg aws st) = Return tt /\
      trace_of (deleteFleet cfg aws st) = events st ++ [Info no_fleet_notice] /\
      issued (snd (deleteFleet cfg aws st)) = issued st) /\
  (forall r,
      ec2_send aws (terminate_command cfg) = Return r ->
      result_of (terminateEc2Instance cfg aws initial) = Return tt /\
      trace_of (terminateEc2Instance cfg aws initial) =
        [ Send (terminate_command cfg);
          Info (terminated_notice cfg);
          Info no_template_notice;
          Info no_fleet_notice ]).
Proof.
  intros Htid Hfid.
  split; [| split; [| split]].
  - unfold_teardown_vocabulary. unfold_run. cbn.
    destruct (ec2_send aws _); cbn.
    + rewrite Htid, Hfid. reflexivity.
    + reflexivity.
  - intros st. rewrite (deleteLaunchTemplate_noop st Htid). repeat split.
  - intros st. rewrite (deleteFleet_noop st Hfid). repeat split.
  - intros r Hterm. unfold_teardown_vocabulary. unfold_run. cbn.
    rewrite Hterm. cbn. rewrite Htid, Hfid. split; reflexivity.
Qed.

End Teardown.

(** C6 at a concrete teardown. *)
Lemma terminate_failure_aborts_witness :
  ec2_send Fixtures.terminate_fails (terminate_command Fixtures.cfg_ids)
    = Throw Fixtures.boom /\
  result_of (terminateEc2Instance Fixtures.cfg_ids Fixtures.terminate_fails initial)
    = Throw Fixtures.boom.
Proof.
  split; [reflexivity |].
  apply (terminate_failure_aborts Fixtures.cfg_ids Fixtures.terminate_fails Fixtures.boom).
  reflexivity.
Defined.

(** C1 as stated fails: the terminate call succeeds and the launch-template
    delete is rejected, yet the fleet delete is never sent. *)
Lemma fleet_delete_skipped_after_template_failure :
  ~ (ec2_send Fixtures.template_delete_fails (terminate_command Fixtures.cfg_ids)
       = Return Fixtures.empty_result ->
     ec2_send Fixtures.template_delete_fails (delete_template_command Fixtures.cfg_ids)
       = Throw Fixtures.boom ->
     In (Send (delete_fleet_command Fixtures.cfg_ids))
        (trace_of (terminateEc2Instance Fixtures.cfg_ids Fixtures.template_delete_fails
                     initial)) /\
     result_of (terminateEc2Instance Fixtures.cfg_ids Fixtures.template_delete_fails initial)
       = Throw Fixtures.boom).
Proof.
  intros H. destruct H as [Hin _]; [reflexivity | reflexivity |].
  vm_compute in Hin.
  destruct Hin as [H | [H | [H | [H | []]]]]; discriminate H.
Qed.

Lemma template_delete_failure_stops_teardown_witness :
  ec2_send Fixtures.template_delete_fails (terminate_command Fixtures.cfg_ids)
    = Return Fixtures.empty_result /\
  Js.truthy (templateId (input Fixtures.cfg_ids)) = true /\
  ec2_send Fixtures.template_delete_fails (delete_template_command Fixtures.cfg_ids)
    = Throw Fixtures.boom /\
  sent (trace_of (terminateEc2Instance Fixtures.cfg_ids Fixtures.template_delete_fails
                    initial))
    = [terminate_command Fixtures.cfg_ids; delete_template_command Fixtures.cfg_ids].
Proof.
  repeat (split; [reflexivity |]).
  apply (template_delete_failure_stops_teardown
           Fixtures.cfg_ids Fixtures.template_delete_fails
           Fixtures.empty_result Fixtures.boom);
    reflexivity.
Defined.

Lemma teardown_without_ids_witness :
  Js.truthy (templateId (input Fixtures.cfg_no_ids)) = false /\
  Js.truthy (fleetId (input Fixtures.cfg_no_ids)) = false /\
  ec2_send Fixtures.all_ok (terminate_command Fixtures.cfg_no_ids)
    = Return Fixtures.empty_result /\
  trace_of (terminateEc2Instance Fixtures.cfg_no_ids Fixtures.all_ok initial)
    = [ Send (terminate_command Fixtures.cfg_no_ids);
        Info (terminated_notice Fixtures.cfg_no_ids);
        Info no_template_notice;
        Info no_fleet_notice ].
Proof.
  repeat (split; [reflexivity |]).
  destruct (teardown_without_ids Fixtures.cfg_no_ids Fixtures.all_ok)
    as (_ & _ & _ & Hrun); [reflexivity | reflexivity |].
  apply (Hrun Fixtures.empty_result). reflexivity.
Defined.

(** C2 at the failing input: the fleet delete is rejected by the provider,
    yet the teardown returns normally, logs the fleet as deleted, and the
    rejection is left on a promise nobody awaits. *)
Theorem fleet_delete_failure_not_surfaced :
  ec2_send Fixtures.fleet_delete_fails (delete_fleet_command Fixtures.cfg_ids)
    = Throw Fixtures.boom /\
  result_of (terminateEc2Instance Fixtures.cfg_ids Fixtures.fleet_delete_fails initial)
    = Return tt /\
  trace_of (terminateEc2Instance Fixtures.cfg_ids Fixtures.fleet_delete_fails initial)
    = [ Send (terminate_command Fixtures.cfg_ids);
        Info (terminated_notice Fixtures.cfg_ids);
        Send (delete_template_command Fixtures.cfg_ids);
        Info "delete launch template";
        Send (delete_fleet_command Fixtures.cfg_ids);
        Info "deleted ec2 fleet" ] /\
  unhandled (snd (terminateEc2Instance Fixtures.cfg_ids Fixtures.fleet_delete_fails initial))
    = [Fixtures.boom].
Proof.
  repeat split.
Qed.

(** The outcome of the fleet delete has no influence on what the caller of
    the teardown receives, nor on the events: two providers that differ only
    on fleet deletes give the same result and the same trace. *)
Lemma fleet_delete_outcome_ignored (cfg : config) (aws1 aws2 : provider) :
  (forall c, (forall ids, c <> Ec2.DeleteFleetsCommand ids) ->
             ec2_send aws1 c = ec2_send aws2 c) ->
  result_of (terminateEc2Instance cfg aws1 initial)
    = result_of (terminateEc2Instance cfg aws2 initial) /\
  trace_of (terminateEc2Instance cfg aws1 initial)
    = trace_of (terminateEc2Instance cfg aws2 initial).
Proof.
  intros Hagree. unfold_run. cbn.
  rewrite (Hagree (Ec2.TerminateInstancesCommand [ec2InstanceId (input cfg)]))
    by discriminate.
  destruct (ec2_send aws2 (Ec2.TerminateInstancesCommand _)); cbn; [| split; reflexivity].
  destruct (Js.truthy (templateId (input cfg))); cbn.
  - rewrite (Hagree (Ec2.DeleteLaunchTemplateCommand (templateId (input cfg))))
      by discriminate.
    destruct (ec2_send aws2 (Ec2.DeleteLaunchTemplateCommand _)); cbn;
      [| split; reflexivity].
    destruct (Js.truthy (fleetId (input cfg))); cbn; split; reflexivity.
  - destruct (Js.truthy (fleetId (input cfg))); cbn; split; reflexivity.
Qed.

(* ================================================================= *)
(** ** Waiting for the instance: [waitForInstanceRunning] *)

(** C9: the wait primitive is called once, with a maximum wait time of 300
    and a filter on the given instance id; the operation resolves when the
    primitive resolves and throws the primitive's error when it throws
    (timeout or provider error), after logging it. *)
Theorem wait_for_running_bounded (aws : provider) (ec2InstanceId : Js.value) :
  waits (trace_of (waitForInstanceRunning aws ec2InstanceId initial))
    = [(wait_configuration, wait_input ec2InstanceId)] /\
  Ec2.maxWaitTime wait_configuration = 300 /\
  result_of (waitForInstanceRunning aws ec2InstanceId initial)
    = waitUntilInstanceRunning aws wait_configuration (wait_input ec2InstanceId) /\
  trace_of (waitForInstanceRunning aws ec2InstanceId initial) =
    [ Info ("Checking for instance " ++ Js.to_str ec2InstanceId ++ " to be up and running");
      WaitRunning wait_configuration (wait_input ec2InstanceId);
      match waitUntilInstanceRunning aws wait_configuration (wait_input ec2InstanceId) with
      | Return _ =>
          Info ("AWS EC2 instance " ++ Js.to_str ec2InstanceId ++ " is up and running")
      | Throw _ =>
          ErrorLog ("AWS EC2 instance " ++ Js.to_str ec2InstanceId ++ " initialization error")
      end ].
Proof.
  unfold_run. unfold wait_configuration, wait_input. cbn.
  destruct (waitUntilInstanceRunning aws _ _) as [[] | e]; cbn; repeat split.
Qed.

(* ================================================================= *)
(** ** Provisioning: [createLaunchTemplate], [startEc2Instance] *)

Section Provisioning.

Variable cfg : config.
Variable aws : provider.
Variables label githubRegistrationToken : string.

(** [createLaunchTemplate] sends one command and never a fleet request;
    what it returns is read off the provider's answer. *)
Lemma createLaunchTemplate_run :
  createLaunchTemplate cfg aws label githubRegistrationToken initial =
    let command := Ec2.CreateLaunchTemplateCommand
                     (createLaunchTemplateInput cfg aws label githubRegistrationToken) in
    let p := {| pid := 0; settlement := ec2_send aws command |} in
    match ec2_send aws command with
    | Return result =>
        (Return (optional_LaunchTemplateId result),
         {| events := [ Send command;
                        SetOutput "template-id" (optional_LaunchTemplateId result);
                        ConsoleLog result ];
            issued := [p];
            awaited := [0] |})
    | Throw e =>
        (Throw e, {| events := [Send command]; issued := [p]; awaited := [0] |})
    end.
Proof.
  unfold_run. cbn.
  destruct (ec2_send aws _); reflexivity.
Qed.

(** C3: when [createLaunchTemplate] yields no template id,
    [startEc2Instance] throws its own error; the launch-template request is
    the only command sent and no fleet request appears among the events. *)
Theorem start_aborts_without_template_id :
  result_of (createLaunchTemplate cfg aws label githubRegistrationToken initial)
    = Return Js.Undefined ->
  result_of (startEc2Instance cfg aws label githubRegistrationToken initial)
    = Throw (new_Error "failed to create launch template") /\
  sent (trace_of (startEc2Instance cfg aws label githubRegistrationToken initial))
    = [ Ec2.CreateLaunchTemplateCommand
          (createLaunchTemplateInput cfg aws label githubRegistrationToken) ] /\
  (forall i, ~ In (Send (Ec2.CreateFleetCommand i))
                  (trace_of (startEc2Instance cfg aws label githubRegistrationToken
                               initial))).
Proof.
  rewrite createLaunchTemplate_run. cbn zeta.
  unfold startEc2Instance at 1 2 3, bind, result_of, trace_of.
  rewrite createLaunchTemplate_run. cbn zeta.
  destruct (ec2_send aws _) as [result | e]; cbn.
  - intros Hid. injection Hid as Hid. rewrite Hid. cbn.
    repeat split.
    intros i [H | [H | [H | []]]]; discriminate H.
  - intros H. discriminate H.
Qed.

(** The same abort when the launch-template request itself fails: the
    provider's error reaches the caller and no fleet request is sent. *)
Lemma start_aborts_on_template_error (e : js_error) :
  result_of (createLaunchTemplate cfg aws label githubRegistrationToken initial)
    = Throw e ->
  result_of (startEc2Instance cfg aws label githubRegistrationToken initial) = Throw e /\
  sent (trace_of (startEc2Instance cfg aws label githubRegistrationToken initial))
    = [ Ec2.CreateLaunchTemplateCommand
          (createLaunchTemplateInput cfg aws label githubRegistrationToken) ].
Proof.
  rewrite createLaunchTemplate_run. cbn zeta.
  unfold startEc2Instance at 1 2, bind, result_of, trace_of.
  rewrite createLaunchTemplate_run. cbn zeta.
  destruct (ec2_send aws _) as [result | e']; cbn.
  - intros H. discriminate H.
  - intros H. injection H as ->. split; reflexivity.
Qed.

(** With a template id the fleet request is sent, right after the
    launch-template request, carrying that id and the override list. *)
Lemma start_sends_fleet_request (id : string) :
  result_of (createLaunchTemplate cfg aws label githubRegistrationToken initial)
    = Return (Js.Str id) ->
  sent (trace_of (startEc2Instance cfg aws label githubRegistrationToken initial))
    = [ Ec2.CreateLaunchTemplateCommand
          (createLaunchTemplateInput cfg aws label githubRegistrationToken);
        Ec2.CreateFleetCommand (createFleetInput cfg (Js.Str id)) ].
Proof.
  rewrite createLaunchTemplate_run. cbn zeta.
  unfold startEc2Instance, bind, result_of, trace_of.
  rewrite createLaunchTemplate_run. cbn zeta.
  destruct (ec2_send aws (Ec2.CreateLaunchTemplateCommand _)) as [result | e]; cbn.
  - intros Hid. injection Hid as Hid. rewrite Hid. cbn.
    unfold try_catch, bind, send, await, first_instance_id, core_setOutput,
      core_info, core_error, emit, ret, throw. cbn.
    destruct (ec2_send aws (Ec2.CreateFleetCommand _)) as [r | e]; cbn;
      [| reflexivity].
    destruct (Ec2.Instances r) as [[| inst rest] |]; cbn; try reflexivity.
    destruct (Ec2.InstanceIds inst) as [[| i ids] |]; cbn; reflexivity.
  - intros H. discriminate H.
Qed.

End Provisioning.

Lemma start_aborts_without_template_id_witness :
  result_of (createLaunchTemplate Fixtures.cfg_ids Fixtures.all_ok "label" "token" initial)
    = Return Js.Undefined /\
  result_of (startEc2Instance Fixtures.cfg_ids Fixtures.all_ok "label" "token" initial)
    = Throw (new_Error "failed to create launch template").
Proof.
  split; [reflexivity |].
  apply (start_aborts_without_template_id Fixtures.cfg_ids Fixtures.all_ok "label" "token").
  reflexivity.
Defined.

(* ================================================================= *)
(** ** The override list of the fleet request *)

Section Overrides.

Context {A B : Type}.

(** A [forEach] whose body pushes one element per item appends the mapped
    array. *)
Lemma forEach_push (f : A -> B) (arr : list A) (acc : list B) :
  Js.forEach arr (fun x acc' => Js.push acc' (f x)) acc = acc ++ map f arr.
Proof.
  unfold Js.forEach, Js.push.
  revert acc. induction arr as [| x arr IH]; intros acc; cbn.
  - now rewrite app_nil_r.
  - rewrite IH. now rewrite <- app_assoc.
Qed.

End Overrides.

Lemma forEach_nested_push (types subnets : list string) (acc : list Ec2.fleet_override) :
  Js.forEach types
    (fun type acc' =>
       Js.forEach subnets
         (fun subnet acc'' =>
            Js.push acc'' {| Ec2.InstanceType := type; Ec2.SubnetId := subnet |})
         acc')
    acc
  = acc ++ cartesian_product types subnets.
Proof.
  unfold Js.forEach at 1.
  revert acc. induction types as [| t types IH]; intros acc; cbn.
  - now rewrite app_nil_r.
  - rewrite IH.
    rewrite (forEach_push
               (fun subnet => {| Ec2.InstanceType := t; Ec2.SubnetId := subnet |})).
    now rewrite <- app_assoc.
Qed.

Lemma cartesian_product_length (types subnets : list string) :
  length (cartesian_product types subnets) = length types * length subnets.
Proof.
  induction types as [| t types IH]; cbn.
  - reflexivity.
  - rewrite length_app, length_map. unfold cartesian_product in IH. now rewrite IH.
Qed.

(** Instance types outermost: the pair of the [i]-th type and the [j]-th
    subnet sits at position [i * |subnets| + j]. *)
Lemma cartesian_product_nth (types subnets : list string) :
  forall i j type subnet,
    nth_error types i = Some type ->
    nth_error subnets j = Some subnet ->
    nth_error (cartesian_product types subnets) (i * length subnets + j)
      = Some {| Ec2.InstanceType := type; Ec2.SubnetId := subnet |}.
Proof.
  induction types as [| t types IH]; intros i j type subnet Hi Hj.
  - destruct i; discriminate Hi.
  - assert (Hlt : j < length subnets) by (apply nth_error_Some; congruence).
    destruct i as [| i]; cbn in Hi |- *.
    + injection Hi as ->.
      rewrite nth_error_app1 by (rewrite length_map; exact Hlt).
      now rewrite nth_error_map, Hj.
    + rewrite nth_error_app2 by (rewrite length_map; lia).
      rewrite length_map.
      replace (length subnets + i * length subnets + j - length subnets)
        with (i * length subnets + j) by lia.
      now apply IH.
Qed.

(** [split] always yields at least one piece. *)
Lemma split_nonempty (sep : ascii) (s : string) : Js.split sep s <> [].
Proof.
  destruct s as [| c s]; cbn.
  - discriminate.
  - destruct (Ascii.eqb c sep); [discriminate |].
    destruct (Js.split sep s); discriminate.
Qed.

(** C4: the override list built by the two nested loops is the cartesian
    product of the configured instance types and subnets, instance types
    outermost and subnets innermost; its length is the product of the two
    lengths; it is the override list of the single launch-template
    configuration of the fleet request. The configured lists are never
    empty. *)
Theorem overrides_are_cartesian_product (cfg : config) (templateId : Js.value) :
  instanceTypes cfg <> [] /\
  subnets cfg <> [] /\
  instancesOverrides cfg = cartesian_product (instanceTypes cfg) (subnets cfg) /\
  length (instancesOverrides cfg) = length (instanceTypes cfg) * length (subnets cfg) /\
  (forall i j type subnet,
      nth_error (instanceTypes cfg) i = Some type ->
      nth_error (subnets cfg) j = Some subnet ->
      nth_error (instancesOverrides cfg) (i * length (subnets cfg) + j)
        = Some {| Ec2.InstanceType := type; Ec2.SubnetId := subnet |}) /\
  map Ec2.Overrides (Ec2.LaunchTemplateConfigs (createFleetInput cfg templateId))
    = [cartesian_product (instanceTypes cfg) (subnets cfg)].
Proof.
  assert (Heq : instancesOverrides cfg
                = cartesian_product (instanceTypes cfg) (subnets cfg)).
  { unfold instancesOverrides, instanceTypes, subnets.
    now rewrite forEach_nested_push. }
  split; [apply split_nonempty |].
  split; [apply split_nonempty |].
  split; [exact Heq |].
  split; [rewrite Heq; apply cartesian_product_length |].
  split.
  - intros i j type subnet Hi Hj. rewrite Heq.
    now apply cartesian_product_nth.
  - cbn. now rewrite Heq.
Qed.

(** C4 on the configuration of the specification's scenario: types
    [t3.micro,t3.small] and subnets [subnet-a,subnet-b] give the four pairs
    in this order. *)
Lemma overrides_are_cartesian_product_witness :
  instancesOverrides Fixtures.cfg_ids =
    [ {| Ec2.InstanceType := "t3.micro"; Ec2.SubnetId := "subnet-a" |};
      {| Ec2.InstanceType := "t3.micro"; Ec2.SubnetId := "subnet-b" |};
      {| Ec2.InstanceType := "t3.small"; Ec2.SubnetId := "subnet-a" |};
      {| Ec2.InstanceType := "t3.small"; Ec2.SubnetId := "subnet-b" |} ].
Proof.
  destruct (overrides_are_cartesian_product Fixtures.cfg_ids Js.Undefined)
    as (_ & _ & Heq & _).
  rewrite Heq. reflexivity.
Defined.

(* ================================================================= *)
(** ** The boot script *)

(** Case analysis on the three inputs that shape the script. *)
Ltac script_cases cfg :=
  destruct cfg as [[home pre_runner user service ? ? ? ? ? ? ? ?] [? ?]];
  unfold buildUserDataScript, UserData.buildUserDataScript, Js.push;
  cbn [input githubContext runnerHomeDir preRunnerScript runAsUser runAsService] in *;
  destruct home as [| [| ? ?]];
  destruct user as [| [| ? ?]];
  destruct service;
  cbn in *;
  try discriminate.

(** The run command of the source is recognised as such, whoever runs it. *)
Lemma run_is_run_command (user : Js.value) :
  is_run_command (UserData.run user) = true.
Proof.
  destruct user as [| [| c s]]; reflexivity.
Qed.

(** C7: without a runner home directory the script has exactly one
    architecture-detection entry, one download entry and one unpack entry,
    in a row and with the text given here; with a runner home directory it
    has none of them. In both cases the script is spelled out up to the
    registration command, and what follows only changes ownership or starts
    the runner. *)
Theorem download_steps_iff_no_home (cfg : config) (token label : string) :
  (Js.truthy (runnerHomeDir (input cfg)) = false ->
   count is_arch_detect (buildUserDataScript cfg token label) = 1 /\
   count is_download (buildUserDataScript cfg token label) = 1 /\
   count is_unpack (buildUserDataScript cfg token label) = 1 /\
   (exists pre post,
       buildUserDataScript cfg token label =
         pre
         ++ [ ("case $(uname -m) in aarch64) ARCH=" ++ double_quote ++ "arm64" ++ double_quote
          ++ " ;; amd64|x86_64) ARCH=" ++ double_quote ++ "x64" ++ double_quote
          ++ " ;; esac && export RUNNER_ARCH=${ARCH}")%string;
              "curl -O -L https://github.com/actions/runner/releases/download/v2.313.0/actions-runner-linux-${RUNNER_ARCH}-2.313.0.tar.gz";
              "tar xzf ./actions-runner-linux-${RUNNER_ARCH}-2.313.0.tar.gz" ]
         ++ post) /\
   exists tail,
     buildUserDataScript cfg token label =
       [ "#!/bin/bash";
         "exec > >(tee /var/log/user-data.log|logger -t user-data -s 2>/dev/console) 2>&1";
         "mkdir actions-runner && cd actions-runner";
         ("echo " ++ double_quote ++ Js.to_str (preRunnerScript (input cfg)) ++ double_quote
          ++ " > pre-runner-script.sh")%string;
         "source pre-runner-script.sh";
         ("case $(uname -m) in aarch64) ARCH=" ++ double_quote ++ "arm64" ++ double_quote
          ++ " ;; amd64|x86_64) ARCH=" ++ double_quote ++ "x64" ++ double_quote
          ++ " ;; esac && export RUNNER_ARCH=${ARCH}")%string;
         "curl -O -L https://github.com/actions/runner/releases/download/v2.313.0/actions-runner-linux-${RUNNER_ARCH}-2.313.0.tar.gz";
         "tar xzf ./actions-runner-linux-${RUNNER_ARCH}-2.313.0.tar.gz";
         "export RUNNER_ALLOW_RUNASROOT=1";
         ("./config.sh --url https://github.com/" ++ owner (githubContext cfg) ++ "/"
          ++ repo (githubContext cfg) ++ " --token " ++ token ++ " --labels " ++ label)%string ]
       ++ tail /\
     forallb (fun line => is_chown line || is_service line || is_run_command line) tail
       = true) /\
  (Js.truthy (runnerHomeDir (input cfg)) = true ->
   count is_arch_detect (buildUserDataScript cfg token label) = 0 /\
   count is_download (buildUserDataScript cfg token label) = 0 /\
   count is_unpack (buildUserDataScript cfg token label) = 0 /\
   exists tail,
     buildUserDataScript cfg token label =
       [ "#!/bin/bash";
         "exec > >(tee /var/log/user-data.log|logger -t user-data -s 2>/dev/console) 2>&1";
         ("cd " ++ double_quote ++ Js.to_str (runnerHomeDir (input cfg))
            ++ double_quote)%string;
         ("echo " ++ double_quote ++ Js.to_str (preRunnerScript (input cfg)) ++ double_quote
          ++ " > pre-runner-script.sh")%string;
         "source pre-runner-script.sh";
         "export RUNNER_ALLOW_RUNASROOT=1";
         ("./config.sh --url https://github.com/" ++ owner (githubContext cfg) ++ "/"
          ++ repo (githubContext cfg) ++ " --token " ++ token ++ " --labels " ++ label)%string ]
       ++ tail /\
     forallb (fun line => is_chown line || is_service line || is_run_command line) tail
       = true).
Proof.
  split; intros Hhome.
  - repeat (split; [script_cases cfg; reflexivity |]).
    split.
    + exists (firstn 5 (buildUserDataScript cfg token label)).
      exists (skipn 8 (buildUserDataScript cfg token label)).
      script_cases cfg; reflexivity.
    + exists (skipn 10 (buildUserDataScript cfg token label)).
      script_cases cfg; split; reflexivity.
  - repeat (split; [script_cases cfg; reflexivity |]).
    exists (skipn 7 (buildUserDataScript cfg token label)).
    script_cases cfg; split; reflexivity.
Qed.

Lemma download_steps_iff_no_home_witness :
  (Js.truthy (runnerHomeDir (input Fixtures.cfg_fresh_user)) = false /\
   count is_arch_detect (buildUserDataScript Fixtures.cfg_fresh_user "token" "label") = 1 /\
   exists pre post,
     buildUserDataScript Fixtures.cfg_fresh_user "token" "label" =
       pre
       ++ [ ("case $(uname -m) in aarch64) ARCH=" ++ double_quote ++ "arm64" ++ double_quote
          ++ " ;; amd64|x86_64) ARCH=" ++ double_quote ++ "x64" ++ double_quote
          ++ " ;; esac && export RUNNER_ARCH=${ARCH}")%string;
            "curl -O -L https://github.com/actions/runner/releases/download/v2.313.0/actions-runner-linux-${RUNNER_ARCH}-2.313.0.tar.gz";
            "tar xzf ./actions-runner-linux-${RUNNER_ARCH}-2.313.0.tar.gz" ]
       ++ post) /\
  (Js.truthy (runnerHomeDir (input Fixtures.cfg_home_service)) = true /\
   count is_arch_detect (buildUserDataScript Fixtures.cfg_home_service "token" "label") = 0).
Proof.
  split; (split; [reflexivity |]).
  - destruct (proj1 (download_steps_iff_no_home Fixtures.cfg_fresh_user "token" "label"))
      as (Harch & _ & _ & Hrow & _); [reflexivity |].
    split; [exact Harch | exact Hrow].
  - destruct (proj2 (download_steps_iff_no_home Fixtures.cfg_home_service "token" "label"))
      as (Harch & _); [reflexivity |].
    exact Harch.
Defined.

Lemma string_append_assoc (a b c : string) :
  ((a ++ b) ++ c = a ++ (b ++ c))%string.
Proof.
  induction a as [| x a IH]; cbn; [reflexivity | now rewrite IH].
Qed.

(** Under a user, the run command is [su <user> -c ./run.sh]. *)
Lemma run_with_user (user : Js.value) :
  Js.truthy user = true ->
  UserData.run user = ("su " ++ Js.to_str user ++ " -c ./run.sh")%string.
Proof.
  intros Huser. unfold UserData.run, UserData.su_prefix. rewrite Huser.
  now rewrite !string_append_assoc.
Qed.

(** C8: as a service, the script's last two entries are
    [./svc.sh install <user>] (no user named when none is configured) and
    [./svc.sh start], and no entry is a run command; run directly under a
    user, the script's last entry is [su <user> -c ./run.sh], its only run
    command. *)
Theorem service_or_run_tail (cfg : config) (token label : string) :
  (runAsService (input cfg) = true ->
   (exists pre,
       buildUserDataScript cfg token label =
         pre
         ++ [ ("./svc.sh install "
                 ++ (if Js.truthy (runAsUser (input cfg))
                     then Js.to_str (runAsUser (input cfg))
                     else EmptyString))%string;
              "./svc.sh start" ]) /\
   (exists head,
       buildUserDataScript cfg token label =
         head
         ++ [ ("./config.sh --url https://github.com/" ++ owner (githubContext cfg) ++ "/"
                 ++ repo (githubContext cfg) ++ " --token " ++ token
                 ++ " --labels " ++ label)%string ]
         ++ (if Js.truthy (runAsUser (input cfg))
             then [ ("chown -R " ++ Js.to_str (runAsUser (input cfg)) ++ " .")%string ]
             else [])
         ++ [ ("./svc.sh install "
                 ++ (if Js.truthy (runAsUser (input cfg))
                     then Js.to_str (runAsUser (input cfg))
                     else EmptyString))%string;
              "./svc.sh start" ]) /\
   (forall line, In line (buildUserDataScript cfg token label) ->
                 is_run_command line = false) /\
   (forall user, ~ In (UserData.run user) (buildUserDataScript cfg token label))) /\
  (runAsService (input cfg) = false ->
   Js.truthy (runAsUser (input cfg)) = true ->
   (exists pre,
       buildUserDataScript cfg token label =
         pre ++ [("su " ++ Js.to_str (runAsUser (input cfg)) ++ " -c ./run.sh")%string]) /\
   count is_run_command (buildUserDataScript cfg token label) = 1).
Proof.
  split.
  - intros Hsvc.
    assert (Hnone : forall line, In line (buildUserDataScript cfg token label) ->
                                 is_run_command line = false).
    { intros line. script_cases cfg; intros Hin;
        repeat (destruct Hin as [<- | Hin]; [reflexivity |]); destruct Hin. }
    split; [| split; [| split]].
    + clear Hnone.
      exists (firstn (length (buildUserDataScript cfg token label) - 2)
                (buildUserDataScript cfg token label)).
      script_cases cfg; reflexivity.
    + clear Hnone.
      exists (firstn (if Js.truthy (runnerHomeDir (input cfg)) then 6 else 9)
                (buildUserDataScript cfg token label)).
      script_cases cfg; reflexivity.
    + exact Hnone.
    + intros user Hin. apply Hnone in Hin.
      rewrite run_is_run_command in Hin. discriminate Hin.
  - intros Hsvc Huser. split.
    + exists (removelast (buildUserDataScript cfg token label)).
      rewrite <- (run_with_user _ Huser).
      script_cases cfg; reflexivity.
    + script_cases cfg; reflexivity.
Qed.

Lemma service_or_run_tail_witness :
  (runAsService (input Fixtures.cfg_home_service) = true /\
   (exists pre,
       buildUserDataScript Fixtures.cfg_home_service "token" "label" =
         pre ++ ["./svc.sh install ubuntu"; "./svc.sh start"]) /\
   forall line,
     In line (buildUserDataScript Fixtures.cfg_home_service "token" "label") ->
     is_run_command line = false) /\
  (runAsService (input Fixtures.cfg_fresh_user) = false /\
   Js.truthy (runAsUser (input Fixtures.cfg_fresh_user)) = true /\
   (exists pre,
       buildUserDataScript Fixtures.cfg_fresh_user "token" "label" =
         pre ++ ["su ubuntu -c ./run.sh"]) /\
   count is_run_command (buildUserDataScript Fixtures.cfg_fresh_user "token" "label") = 1).
Proof.
  split.
  - split; [reflexivity |].
    destruct (proj1 (service_or_run_tail Fixtures.cfg_home_service "token" "label"))
      as (Htail & _ & Hnone & _); [reflexivity |].
    split; [exact Htail | exact Hnone].
  - split; [reflexivity | split; [reflexivity |]].
    apply (proj2 (service_or_run_tail Fixtures.cfg_fresh_user "token" "label"));
      reflexivity.
Defined.

(** C10: whether or not a runner home directory is configured, the fourth
    entry of the script is [echo "<pre-runner script>" > pre-runner-script.sh],
    the fifth is [source pre-runner-script.sh], and the one registration
    command of the script, [./config.sh --url ... --token ... --labels ...],
    comes after both. *)
Theorem pre_runner_before_register (cfg : config) (token label : string) :
  exists pre mid post,
    buildUserDataScript cfg token label =
      pre
      ++ [ ("echo " ++ double_quote ++ Js.to_str (preRunnerScript (input cfg)) ++ double_quote
            ++ " > pre-runner-script.sh")%string;
           "source pre-runner-script.sh" ]
      ++ mid
      ++ [ ("./config.sh --url https://github.com/" ++ owner (githubContext cfg) ++ "/"
             ++ repo (githubContext cfg) ++ " --token " ++ token ++ " --labels " ++ label)%string ]
      ++ post /\
    length pre = 3 /\
    is_register
      ("./config.sh --url https://github.com/" ++ owner (githubContext cfg) ++ "/"
         ++ repo (githubContext cfg) ++ " --token " ++ token ++ " --labels " ++ label)%string
      = true /\
    count is_register (pre ++ mid ++ post) = 0 /\
    count is_register (buildUserDataScript cfg token label) = 1.
Proof.
  destruct (Js.truthy (runnerHomeDir (input cfg))) eqn:Hhome.
  - exists [ UserData.shebang; UserData.exec_log;
             UserData.cd_home (runnerHomeDir (input cfg)) ].
    exists [ UserData.allow_root ].
    exists (skipn 7 (buildUserDataScript cfg token label)).
    script_cases cfg; repeat split.
  - exists [ UserData.shebang; UserData.exec_log; UserData.mkdir_runner ].
    exists [ UserData.arch_detect; UserData.download; UserData.unpack;
             UserData.allow_root ].
    exists (skipn 10 (buildUserDataScript cfg token label)).
    script_cases cfg; repeat split.
Qed.

(* ================================================================= *)
(** ** The teardown in general *)

(** Case analysis on everything the teardown depends on: the two
    identifiers and the three settlements. *)
Ltac teardown_cases cfg aws :=
  unfold_teardown_vocabulary; unfold_run; cbn;
  destruct (ec2_send aws (Ec2.TerminateInstancesCommand _)) eqn:Hterm; cbn;
  destruct (Js.truthy (templateId (input cfg))) eqn:Htid; cbn;
  try (destruct (ec2_send aws (Ec2.DeleteLaunchTemplateCommand _)) eqn:Hdel; cbn);
  destruct (Js.truthy (fleetId (input cfg))) eqn:Hfid; cbn;
  try (destruct (ec2_send aws (Ec2.DeleteFleetsCommand _)) eqn:Hfd; cbn).

Ltac settle :=
  repeat match goal with
         | |- _ <-> _ => split
         | |- _ /\ _ => split
         | |- forall _, _ => intro
         | H : _ /\ _ |- _ => destruct H
         | H : _ \/ _ |- _ => destruct H
         | H : exists _, _ |- _ => destruct H
         | H : False |- _ => destruct H
         | H : _ = _ |- _ => discriminate H
         | H : ?x = ?x |- _ => clear H
         | H : Return _ = Return _ |- _ => injection H as H; subst
         | H : Throw _ = Throw _ |- _ => injection H as H; subst
         end;
  try reflexivity;
  try solve [eauto 6 | intuition (try discriminate; try congruence; eauto)].

Section TeardownGeneral.

Variable cfg : config.
Variable aws : provider.

(** X1: The teardown sends its commands in one order, each at most once:
    terminate first, then the launch-template delete, then the fleet
    delete. *)
Theorem teardown_command_order :
  exists with_template with_fleet : bool,
    sent (trace_of (terminateEc2Instance cfg aws initial)) =
      terminate_command cfg
        :: (if with_template then [delete_template_command cfg] else [])
        ++ (if with_fleet then [delete_fleet_command cfg] else []).
Proof.
  teardown_cases cfg aws;
    first [ now exists true, true | now exists true, false
          | now exists false, true | now exists false, false ].
Qed.

(** X2: The launch-template delete is sent exactly when there is a template id
    and the terminate call succeeded. *)
Theorem template_delete_sent_iff :
  In (delete_template_command cfg) (sent (trace_of (terminateEc2Instance cfg aws initial)))
  <->
  Js.truthy (templateId (input cfg)) = true /\
  exists r, ec2_send aws (terminate_command cfg) = Return r.
Proof.
  teardown_cases cfg aws; settle.
Qed.

(** X3: The fleet delete is sent exactly when there is a fleet id, the terminate
    call succeeded, and the launch-template delete was skipped or
    succeeded. *)
Theorem fleet_delete_sent_iff :
  In (delete_fleet_command cfg) (sent (trace_of (terminateEc2Instance cfg aws initial)))
  <->
  Js.truthy (fleetId (input cfg)) = true /\
  (exists r, ec2_send aws (terminate_command cfg) = Return r) /\
  (Js.truthy (templateId (input cfg)) = false \/
   exists r, ec2_send aws (delete_template_command cfg) = Return r).
Proof.
  teardown_cases cfg aws; settle.
Qed.

(** X4: The teardown resolves exactly when the terminate call succeeds and the
    launch-template delete is skipped or succeeds; it throws [e] exactly
    when the terminate call throws [e], or succeeds and the launch-template
    delete, sent, throws [e]. The fleet delete plays no part. *)
Theorem teardown_result :
  (result_of (terminateEc2Instance cfg aws initial) = Return tt <->
   (exists r, ec2_send aws (terminate_command cfg) = Return r) /\
   (Js.truthy (templateId (input cfg)) = false \/
    exists r, ec2_send aws (delete_template_command cfg) = Return r)) /\
  (forall e,
      result_of (terminateEc2Instance cfg aws initial) = Throw e <->
      ec2_send aws (terminate_command cfg) = Throw e \/
      ((exists r, ec2_send aws (terminate_command cfg) = Return r) /\
       Js.truthy (templateId (input cfg)) = true /\
       ec2_send aws (delete_template_command cfg) = Throw e)).
Proof.
  teardown_cases cfg aws; settle.
Qed.

(** X5: Every failed teardown logs exactly one error line, the termination
    error, whichever step failed; a teardown that resolves logs none. *)
Theorem teardown_error_lines :
  error_lines (trace_of (terminateEc2Instance cfg aws initial)) =
    match result_of (terminateEc2Instance cfg aws initial) with
    | Return _ => []
    | Throw _ => [termination_error_notice cfg]
    end.
Proof.
  teardown_cases cfg aws; reflexivity.
Qed.

(** X6: After a successful terminate, a rejected launch-template delete is
    reported as a termination error, right after the notice that the
    instance is terminated. *)
Theorem template_delete_failure_trace (r : Ec2.response) (e : js_error) :
  ec2_send aws (terminate_command cfg) = Return r ->
  Js.truthy (templateId (input cfg)) = true ->
  ec2_send aws (delete_template_command cfg) = Throw e ->
  trace_of (terminateEc2Instance cfg aws initial) =
    [ Send (terminate_command cfg);
      Info (terminated_notice cfg);
      Send (delete_template_command cfg);
      ErrorLog (termination_error_notice cfg) ].
Proof.
  intros Hterm Hid Hdel. unfold_teardown_vocabulary. unfold_run. cbn.
  rewrite Hterm. cbn. rewrite Hid. cbn. rewrite Hdel. reflexivity.
Qed.

(** X7: The rejections nobody handles after a teardown are those of the fleet
    delete, when it was sent: every other promise is awaited. *)
Theorem teardown_unhandled (e : js_error) :
  In e (unhandled (snd (terminateEc2Instance cfg aws initial)))
  <->
  In (delete_fleet_command cfg) (sent (trace_of (terminateEc2Instance cfg aws initial))) /\
  ec2_send aws (delete_fleet_command cfg) = Throw e.
Proof.
  unfold unhandled.
  teardown_cases cfg aws; rewrite ?Hfd; cbn; settle.
Qed.

End TeardownGeneral.

Lemma template_delete_failure_trace_witness :
  ec2_send Fixtures.template_delete_fails (terminate_command Fixtures.cfg_ids)
    = Return Fixtures.empty_result /\
  Js.truthy (templateId (input Fixtures.cfg_ids)) = true /\
  ec2_send Fixtures.template_delete_fails (delete_template_command Fixtures.cfg_ids)
    = Throw Fixtures.boom /\
  trace_of (terminateEc2Instance Fixtures.cfg_ids Fixtures.template_delete_fails initial) =
    [ Send (Ec2.TerminateInstancesCommand [Js.Str "i-1"]);
      Info "AWS EC2 instance i-1 is terminated";
      Send (Ec2.DeleteLaunchTemplateCommand (Js.Str "lt-1"));
      ErrorLog "AWS EC2 instance i-1 termination error" ].
Proof.
  repeat (split; [reflexivity |]).
  apply (template_delete_failure_trace Fixtures.cfg_ids Fixtures.template_delete_fails
           Fixtures.empty_result Fixtures.boom);
    reflexivity.
Defined.

(* ================================================================= *)
(** ** The provisioning in general *)

Ltac unfold_start_vocabulary :=
  unfold create_template_command, create_fleet_command, started_notice,
    starting_error_notice in *.

(** Case analysis on everything the provisioning depends on: the two
    settlements, the template id, and the shape of the fleet's answer. *)
Ltac start_cases cfg aws :=
  unfold_start_vocabulary; unfold_run; cbn;
  destruct (ec2_send aws (Ec2.CreateLaunchTemplateCommand _)) as [r1 | e1] eqn:Hclt; cbn;
  [ unfold optional_LaunchTemplateId in *;
    destruct (Ec2.LaunchTemplate r1) as [[[| tid]] |] eqn:Hlt; cbn;
    try (destruct (ec2_send aws (Ec2.CreateFleetCommand _)) as [r2 | e2] eqn:Hcf; cbn;
         [ destruct (Ec2.Instances r2) as [[| inst rest] |] eqn:Hinst; cbn;
           try (destruct (Ec2.InstanceIds inst) as [[| id ids] |] eqn:Hids; cbn)
         | ])
  | ].

Section ProvisioningGeneral.

Variable cfg : config.
Variable aws : provider.
Variables label githubRegistrationToken : string.

(** X9: [createLaunchTemplate] throws only what the provider throws; when the
    provider answers, it resolves, even without an id, and the one
    [template-id] output it sets is the value it returns. *)
Theorem createLaunchTemplate_outcome :
  (forall e,
      result_of (createLaunchTemplate cfg aws label githubRegistrationToken initial)
        = Throw e <->
      ec2_send aws (create_template_command cfg aws label githubRegistrationToken)
        = Throw e) /\
  (forall v,
      result_of (createLaunchTemplate cfg aws label githubRegistrationToken initial)
        = Return v ->
      filter (sets_output "template-id")
        (trace_of (createLaunchTemplate cfg aws label githubRegistrationToken initial))
        = [SetOutput "template-id" v]).
Proof.
  unfold create_template_command. rewrite createLaunchTemplate_run. cbn zeta.
  destruct (ec2_send aws _) as [r | e']; cbn; settle.
Qed.


(** X11: When the fleet request is rejected, the error is logged and rethrown,
    no [fleet-id] output is set, and the launch template just created is
    left in place: no delete command is sent. *)
Theorem start_fleet_failure (r1 : Ec2.response) (tid : string) (e : js_error) :
  ec2_send aws (create_template_command cfg aws label githubRegistrationToken)
    = Return r1 ->
  optional_LaunchTemplateId r1 = Js.Str tid ->
  ec2_send aws (create_fleet_command cfg (Js.Str tid)) = Throw e ->
  result_of (startEc2Instance cfg aws label githubRegistrationToken initial) = Throw e /\
  trace_of (startEc2Instance cfg aws label githubRegistrationToken initial) =
    [ Send (create_template_command cfg aws label githubRegistrationToken);
      SetOutput "template-id" (Js.Str tid);
      ConsoleLog r1;
      Send (create_fleet_command cfg (Js.Str tid));
      ErrorLog starting_error_notice ].
Proof.
  intros Hclt Hopt Hcf.
  unfold_start_vocabulary. unfold_run. cbn.
  rewrite Hclt. cbn. rewrite Hopt. cbn. rewrite Hcf. cbn. split; reflexivity.
Qed.

(** X12: When the fleet answers without a first instance entry, or with one that
    has no id list, reading the id throws a [TypeError]: it is logged as a
    starting error and rethrown, and no [fleet-id] output is set. *)
Theorem start_without_instance (r1 r2 : Ec2.response) (tid : string) :
  ec2_send aws (create_template_command cfg aws label githubRegistrationToken)
    = Return r1 ->
  optional_LaunchTemplateId r1 = Js.Str tid ->
  ec2_send aws (create_fleet_command cfg (Js.Str tid)) = Return r2 ->
  (Ec2.Instances r2 = None \/
   Ec2.Instances r2 = Some [] \/
   exists inst rest,
     Ec2.Instances r2 = Some (inst :: rest) /\ Ec2.InstanceIds inst = None) ->
  (exists msg,
      result_of (startEc2Instance cfg aws label githubRegistrationToken initial)
        = Throw (new_TypeError msg)) /\
  error_lines (trace_of (startEc2Instance cfg aws label githubRegistrationToken initial))
    = [starting_error_notice] /\
  filter (sets_output "fleet-id")
    (trace_of (startEc2Instance cfg aws label githubRegistrationToken initial)) = [].
Proof.
  intros Hclt Hopt Hcf Hshape.
  unfold_start_vocabulary. unfold_run. cbn.
  rewrite Hclt. cbn. rewrite Hopt. cbn. rewrite Hcf. cbn.
  destruct Hshape as [Hinst | [Hinst | (inst & rest & Hinst & Hids)]];
    rewrite Hinst; cbn; try (rewrite Hids; cbn);
    (split; [eexists; reflexivity | split; reflexivity]).
Qed.

(** X13: When the first instance entry of the fleet's answer has an empty id
    list, nothing is thrown: [startEc2Instance] resolves to [undefined],
    sets the [fleet-id] output and logs that instance [undefined] is
    started. *)
Theorem start_with_empty_id_list (r1 r2 : Ec2.response) (tid : string)
    (inst : Ec2.fleet_instance) (rest : list Ec2.fleet_instance) :
  ec2_send aws (create_template_command cfg aws label githubRegistrationToken)
    = Return r1 ->
  optional_LaunchTemplateId r1 = Js.Str tid ->
  ec2_send aws (create_fleet_command cfg (Js.Str tid)) = Return r2 ->
  Ec2.Instances r2 = Some (inst :: rest) ->
  Ec2.InstanceIds inst = Some [] ->
  result_of (startEc2Instance cfg aws label githubRegistrationToken initial)
    = Return Js.Undefined /\
  trace_of (startEc2Instance cfg aws label githubRegistrationToken initial) =
    [ Send (create_template_command cfg aws label githubRegistrationToken);
      SetOutput "template-id" (Js.Str tid);
      ConsoleLog r1;
      Send (create_fleet_command cfg (Js.Str tid));
      SetOutput "fleet-id" (Ec2.FleetId r2);
      Info "AWS EC2 instance undefined is started" ].
Proof.
  intros Hclt Hopt Hcf Hinst Hids.
  unfold_start_vocabulary. unfold_run. cbn.
  rewrite Hclt. cbn. rewrite Hopt. cbn. rewrite Hcf. cbn.
  rewrite Hinst. cbn. rewrite Hids. cbn. split; reflexivity.
Qed.

(** X14: The [fleet-id] output is set exactly in the runs that resolve, and then
    once. *)
Theorem fleet_id_output_iff_resolved :
  length (filter (sets_output "fleet-id")
            (trace_of (startEc2Instance cfg aws label githubRegistrationToken initial)))
  = match result_of (startEc2Instance cfg aws label githubRegistrationToken initial) with
    | Return _ => 1
    | Throw _ => 0
    end.
Proof.
  start_cases cfg aws; reflexivity.
Qed.


(** X16: Provisioning only ever creates: the commands it sends are the template
    request and then, at most, the fleet request; nothing is terminated or
    deleted, whatever fails; and every promise is awaited. *)
Theorem start_only_creates :
  (exists with_fleet : list Ec2.create_fleet_input,
      length with_fleet <= 1 /\
      sent (trace_of (startEc2Instance cfg aws label githubRegistrationToken initial)) =
        create_template_command cfg aws label githubRegistrationToken
          :: map Ec2.CreateFleetCommand with_fleet) /\
  unhandled (snd (startEc2Instance cfg aws label githubRegistrationToken initial)) = [].
Proof.
  unfold unhandled.
  start_cases cfg aws; rewrite ?Hclt, ?Hcf; cbn;
    (split; [| reflexivity]);
    first [ exists []; split; [cbn; lia | reflexivity]
          | eexists [_]; split; [cbn; lia | reflexivity] ].
Qed.

End ProvisioningGeneral.


Lemma start_fleet_failure_witness :
  result_of (startEc2Instance Fixtures.cfg_ids Fixtures.fleet_create_fails
               "label" "token" initial)
    = Throw Fixtures.boom /\
  sent (trace_of (startEc2Instance Fixtures.cfg_ids Fixtures.fleet_create_fails
                    "label" "token" initial)) =
    [ create_template_command Fixtures.cfg_ids Fixtures.fleet_create_fails "label" "token";
      create_fleet_command Fixtures.cfg_ids (Js.Str "lt-9") ].
Proof.
  destruct (start_fleet_failure Fixtures.cfg_ids Fixtures.fleet_create_fails
              "label" "token" Fixtures.created_template "lt-9" Fixtures.boom)
    as [Hres Htrace]; try reflexivity.
  split; [exact Hres | rewrite Htrace; reflexivity].
Defined.

Lemma start_without_instance_witness :
  exists msg,
    result_of (startEc2Instance Fixtures.cfg_ids Fixtures.fleet_without_instances
                 "label" "token" initial)
      = Throw (new_TypeError msg).
Proof.
  apply (start_without_instance Fixtures.cfg_ids Fixtures.fleet_without_instances
           "label" "token" Fixtures.created_template Fixtures.fleet_with_no_instance
           "lt-9");
    try reflexivity.
  right. left. reflexivity.
Defined.

Lemma start_with_empty_id_list_witness :
  result_of (startEc2Instance Fixtures.cfg_ids Fixtures.fleet_without_ids
               "label" "token" initial)
    = Return Js.Undefined.
Proof.
  apply (start_with_empty_id_list Fixtures.cfg_ids Fixtures.fleet_without_ids
           "label" "token" Fixtures.created_template Fixtures.fleet_with_empty_id_list
           "lt-9" {| Ec2.InstanceIds := Some [] |} []);
    reflexivity.
Defined.


Lemma createLaunchTemplate_outcome_witness :
  filter (sets_output "template-id")
    (trace_of (createLaunchTemplate Fixtures.cfg_ids Fixtures.all_ok "label" "token" initial))
    = [SetOutput "template-id" Js.Undefined].
Proof.
  apply (proj2 (createLaunchTemplate_outcome
                  Fixtures.cfg_ids Fixtures.all_ok "label" "token")).
  reflexivity.
Defined.

(* ================================================================= *)
(** ** Splitting the configured lists *)

Section Split.

Variable sep : ascii.

(** One piece more than there are separators. *)
Lemma split_length (s : string) :
  length (Js.split sep s) = S (occurrences sep s).
Proof.
  induction s as [| c s IH]; cbn; [reflexivity |].
  destruct (Ascii.eqb c sep); cbn.
  - now rewrite IH.
  - destruct (Js.split sep s) as [| w ws]; cbn in *; [discriminate IH | exact IH].
Qed.

(** Joining the pieces with the separator gives the string back. *)
Lemma join_split (s : string) :
  Js.join (String sep EmptyString) (Js.split sep s) = s.
Proof.
  unfold Js.join.
  induction s as [| c s IH]; cbn; [reflexivity |].
  destruct (Ascii.eqb c sep) eqn:Hc.
  - apply Ascii.eqb_eq in Hc. subst c.
    pose proof (split_nonempty sep s) as Hne.
    destruct (Js.split sep s) as [| w ws]; [contradiction |].
    cbn in *. now rewrite IH.
  - pose proof (split_nonempty sep s) as Hne.
    destruct (Js.split sep s) as [| w ws]; [contradiction |].
    destruct ws as [| w' ws]; cbn in *; now rewrite <- IH.
Qed.

(** No piece contains the separator. *)
Lemma split_pieces_clean (s piece : string) :
  In piece (Js.split sep s) -> has_char sep piece = false.
Proof.
  revert piece. induction s as [| c s IH]; cbn; intros piece Hin.
  - destruct Hin as [<- | []]. reflexivity.
  - destruct (Ascii.eqb c sep) eqn:Hc.
    + destruct Hin as [<- | Hin]; [reflexivity | now apply IH].
    + destruct (Js.split sep s) as [| w ws].
      * destruct Hin as [<- | []]. cbn. now rewrite Hc.
      * destruct Hin as [<- | Hin].
        -- cbn. rewrite Hc. apply IH. now left.
        -- apply IH. now right.
Qed.

(** A string without the separator is its own single piece. *)
Lemma split_clean (s : string) :
  has_char sep s = false -> Js.split sep s = [s].
Proof.
  induction s as [| c s IH]; cbn; intros Hclean; [reflexivity |].
  apply orb_false_iff in Hclean as [Hc Hs].
  rewrite Hc, (IH Hs). reflexivity.
Qed.

(** Splitting after a clean first piece and a separator. *)
Lemma split_cons (piece rest : string) :
  has_char sep piece = false ->
  Js.split sep (piece ++ String sep rest) = piece :: Js.split sep rest.
Proof.
  induction piece as [| c piece IH]; cbn; intros Hclean.
  - now rewrite Ascii.eqb_refl.
  - apply orb_false_iff in Hclean as [Hc Hp].
    rewrite Hc, (IH Hp). reflexivity.
Qed.

(** Splitting what was joined gives the pieces back, when there is at least
    one piece and none contains the separator. *)
Lemma split_join (pieces : list string) :
  pieces <> [] ->
  (forall piece, In piece pieces -> has_char sep piece = false) ->
  Js.split sep (Js.join (String sep EmptyString) pieces) = pieces.
Proof.
  unfold Js.join.
  induction pieces as [| p pieces IH]; intros Hne Hclean; [contradiction |].
  destruct pieces as [| q pieces].
  - cbn. apply split_clean. apply Hclean. now left.
  - change (String.concat (String sep EmptyString) (p :: q :: pieces))
      with (p ++ String sep (String.concat (String sep EmptyString) (q :: pieces)))%string.
    rewrite split_cons by (apply Hclean; now left).
    rewrite IH; [reflexivity | discriminate |].
    intros piece Hin. apply Hclean. now right.
Qed.

End Split.

Section OverridesGeneral.

Variable cfg : config.

Lemma instancesOverrides_product :
  instancesOverrides cfg = cartesian_product (instanceTypes cfg) (subnets cfg).
Proof.
  unfold instancesOverrides, instanceTypes, subnets.
  now rewrite forEach_nested_push.
Qed.

(** X19: The configured strings are cut at every comma and nowhere else: joining
    the instance types (the subnets) with commas gives the configured string
    back, and no instance type or subnet contains a comma. *)
Theorem configured_lists_round_trip :
  Js.join "," (instanceTypes cfg) = ec2InstanceType (input cfg) /\
  Js.join "," (subnets cfg) = subnetId (input cfg) /\
  (forall type, In type (instanceTypes cfg) -> has_char ","%char type = false) /\
  (forall subnet, In subnet (subnets cfg) -> has_char ","%char subnet = false).
Proof.
  unfold instanceTypes, subnets.
  split; [apply join_split |].
  split; [apply join_split |].
  split; intros piece Hin; eapply split_pieces_clean; exact Hin.
Qed.

(** X20: The number of overrides is fixed by the commas of the two configured
    strings; in particular the override list is never empty, and an empty
    configured string still counts as one (empty) instance type or subnet. *)
Theorem overrides_count :
  length (instancesOverrides cfg) =
    S (occurrences ","%char (ec2InstanceType (input cfg)))
    * S (occurrences ","%char (subnetId (input cfg))) /\
  instancesOverrides cfg <> [].
Proof.
  assert (Hlen : length (instancesOverrides cfg) =
                 S (occurrences ","%char (ec2InstanceType (input cfg)))
                 * S (occurrences ","%char (subnetId (input cfg)))).
  { rewrite instancesOverrides_product, cartesian_product_length.
    unfold instanceTypes, subnets. now rewrite !split_length. }
  split; [exact Hlen |].
  intros Hnil. rewrite Hnil in Hlen. cbn in Hlen. lia.
Qed.

(** X21: An override is in the list exactly when its instance type is one of the
    configured types and its subnet one of the configured subnets. *)
Theorem overrides_membership (o : Ec2.fleet_override) :
  In o (instancesOverrides cfg) <->
  In (Ec2.InstanceType o) (instanceTypes cfg) /\ In (Ec2.SubnetId o) (subnets cfg).
Proof.
  rewrite instancesOverrides_product. unfold cartesian_product.
  rewrite in_flat_map. split.
  - intros (type & Htype & Hin). apply in_map_iff in Hin as (subnet & <- & Hsubnet).
    cbn. split; assumption.
  - intros [Htype Hsubnet]. exists (Ec2.InstanceType o). split; [exact Htype |].
    apply in_map_iff. exists (Ec2.SubnetId o). split; [| exact Hsubnet].
    destruct o; reflexivity.
Qed.

(** X22: Without repeated instance types and without repeated subnets, no
    placement is requested twice. *)
Theorem overrides_nodup :
  NoDup (instanceTypes cfg) -> NoDup (subnets cfg) -> NoDup (instancesOverrides cfg).
Proof.
  rewrite instancesOverrides_product.
  generalize (subnets cfg) as ss. intros ss Htypes Hss.
  induction Htypes as [| t types Hnotin Htypes IH]; cbn; [constructor |].
  apply NoDup_app.
  - clear -Hss. induction Hss as [| s ss Hs Hss IH]; cbn; constructor; [| exact IH].
    intros Hin. apply in_map_iff in Hin as (s' & Heq & Hin').
    injection Heq as <-. contradiction.
  - exact IH.
  - intros o Ho Ho'.
    apply in_map_iff in Ho as (s & <- & _).
    apply in_flat_map in Ho' as (t' & Ht' & Ho').
    apply in_map_iff in Ho' as (s' & Heq & _).
    injection Heq as <- _. contradiction.
Qed.

End OverridesGeneral.

Lemma overrides_nodup_witness :
  NoDup (instanceTypes Fixtures.cfg_ids) /\
  NoDup (subnets Fixtures.cfg_ids) /\
  NoDup (instancesOverrides Fixtures.cfg_ids).
Proof.
  assert (Htypes : NoDup (instanceTypes Fixtures.cfg_ids)).
  { repeat constructor; cbn; intuition discriminate. }
  assert (Hsubnets : NoDup (subnets Fixtures.cfg_ids)).
  { repeat constructor; cbn; intuition discriminate. }
  split; [exact Htypes | split; [exact Hsubnets |]].
  apply (overrides_nodup Fixtures.cfg_ids Htypes Hsubnets).
Defined.

(* ================================================================= *)
(** ** The encoded boot script *)

Lemma div_pack (k x y : nat) : y < k -> (x * k + y) / k = x.
Proof.
  intros H. rewrite Nat.div_add_l by lia. rewrite Nat.div_small by exact H. lia.
Qed.

Lemma mod_pack (k x y : nat) : y < k -> (x * k + y) mod k = y.
Proof.
  intros H. rewrite Nat.add_comm, Nat.Div0.mod_add. now apply Nat.mod_small.
Qed.

(** The value of a digit is the number it stands for, and no digit is the
    padding character. *)
Lemma base64_digit_value (n : nat) :
  n < 64 ->
  base64_value (Base64.digit n) = n /\ Ascii.eqb (Base64.digit n) "="%char = false.
Proof.
  intros Hn.
  do 64 (destruct n as [| n]; [split; reflexivity |]).
  lia.
Qed.

Lemma list_ind3 (P : list nat -> Prop) :
  P [] ->
  (forall a, P [a]) ->
  (forall a b, P [a; b]) ->
  (forall a b c rest, P rest -> P (a :: b :: c :: rest)) ->
  forall bs, P bs.
Proof.
  intros H0 H1 H2 H3.
  fix IH 1.
  intros [| a [| b [| c rest]]]; [exact H0 | apply H1 | apply H2 | apply H3, IH].
Qed.

(** The four digits of a group of bytes. *)
Ltac digit_facts a b c :=
  assert (Ha1 : a / 4 < 64) by (apply Nat.Div0.div_lt_upper_bound; lia);
  assert (Ha2 : a mod 4 < 4) by (apply Nat.mod_upper_bound; lia);
  assert (Hb1 : b / 16 < 16) by (apply Nat.Div0.div_lt_upper_bound; lia);
  assert (Hb2 : b mod 16 < 16) by (apply Nat.mod_upper_bound; lia);
  assert (Hc1 : c / 64 < 4) by (apply Nat.Div0.div_lt_upper_bound; lia);
  assert (Hc2 : c mod 64 < 64) by (apply Nat.mod_upper_bound; lia);
  pose proof (Nat.div_mod_eq a 4) as Ea;
  pose proof (Nat.div_mod_eq b 16) as Eb;
  pose proof (Nat.div_mod_eq c 64) as Ec.

Lemma base64_decode_encode_bytes (bs : list nat) :
  Forall (fun b => b < 256) bs ->
  base64_decode_chars (list_ascii_of_string (Base64.encode_bytes bs)) = bs.
Proof.
  induction bs as [| a | a b | a b c rest IH] using list_ind3; intros Hbs.
  - reflexivity.
  - inversion Hbs as [| ? ? Ha _]; subst.
    digit_facts a 0 0.
    cbn [Base64.encode_bytes list_ascii_of_string base64_decode_chars].
    change (Ascii.eqb "=" "=") with true. cbv iota zeta.
    destruct (base64_digit_value (a / 4) Ha1) as [-> _].
    assert (H2 : a mod 4 * 16 < 64) by lia.
    destruct (base64_digit_value _ H2) as [-> _].
    rewrite Nat.div_mul by lia.
    f_equal. lia.
  - inversion Hbs as [| ? ? Ha Hbs']; subst.
    inversion Hbs' as [| ? ? Hb _]; subst.
    digit_facts a b 0.
    cbn [Base64.encode_bytes list_ascii_of_string base64_decode_chars].
    change (Ascii.eqb "=" "=") with true.
    assert (H2 : a mod 4 * 16 + b / 16 < 64) by lia.
    assert (H3 : b mod 16 * 4 < 64) by lia.
    destruct (base64_digit_value (a / 4) Ha1) as [-> _].
    destruct (base64_digit_value _ H2) as [-> _].
    destruct (base64_digit_value _ H3) as [-> ->].
    cbv iota zeta.
    rewrite (div_pack 16 (a mod 4) _ Hb1), (mod_pack 16 (a mod 4) _ Hb1).
    rewrite Nat.div_mul by lia.
    f_equal; [lia | f_equal; lia].
  - inversion Hbs as [| ? ? Ha Hbs']; subst.
    inversion Hbs' as [| ? ? Hb Hbs'']; subst.
    inversion Hbs'' as [| ? ? Hc Hrest]; subst.
    digit_facts a b c.
    cbn [Base64.encode_bytes list_ascii_of_string base64_decode_chars].
    assert (H2 : a mod 4 * 16 + b / 16 < 64) by lia.
    assert (H3 : b mod 16 * 4 + c / 64 < 64) by lia.
    destruct (base64_digit_value (a / 4) Ha1) as [-> _].
    destruct (base64_digit_value _ H2) as [-> _].
    destruct (base64_digit_value _ H3) as [-> ->].
    destruct (base64_digit_value _ Hc2) as [-> ->].
    cbv iota zeta.
    rewrite (div_pack 16 (a mod 4) _ Hb1), (mod_pack 16 (a mod 4) _ Hb1).
    rewrite (div_pack 4 (b mod 16) _ Hc1), (mod_pack 4 (b mod 16) _ Hc1).
    rewrite (IH Hrest).
    f_equal; [lia | f_equal; [lia | f_equal; lia]].
Qed.

(** Decoding an encoded text gives the text back. *)
Lemma base64_decode_encode (s : string) :
  base64_decode (Base64.encode s) = s.
Proof.
  unfold base64_decode, Base64.encode.
  rewrite base64_decode_encode_bytes.
  - rewrite map_map.
    rewrite (map_ext _ (fun c => c)) by (intros c; apply ascii_nat_embedding).
    rewrite map_id. apply string_of_list_ascii_of_string.
  - apply Forall_forall. intros b Hin.
    apply in_map_iff in Hin as (c & <- & _). apply nat_ascii_bounded.
Qed.

Lemma base64_encode_bytes_length (bs : list nat) :
  String.length (Base64.encode_bytes bs) = 4 * ((length bs + 2) / 3).
Proof.
  induction bs as [| a | a b | a b c rest IH] using list_ind3;
    try reflexivity.
  cbn [Base64.encode_bytes String.length length]. rewrite IH.
  replace (S (S (S (length rest))) + 2) with (length rest + 2 + 1 * 3) by lia.
  rewrite Nat.div_add by lia. lia.
Qed.

Section EncodedScript.

Variable cfg : config.
Variable aws : provider.
Variables label githubRegistrationToken : string.

(** X23: The [UserData] of the launch template loses nothing: decoded, it is the
    boot script, its entries joined by line feeds; and it takes four
    characters for every three bytes of that text, rounded up. *)
Theorem user_data_decodes_to_script :
  base64_decode
    (Ec2.UserData
       (Ec2.LaunchTemplateData
          (createLaunchTemplateInput cfg aws label githubRegistrationToken)))
    = Js.join Js.lf (buildUserDataScript cfg githubRegistrationToken label) /\
  String.length
    (Ec2.UserData
       (Ec2.LaunchTemplateData
          (createLaunchTemplateInput cfg aws label githubRegistrationToken)))
    = 4 * ((String.length
              (Js.join Js.lf (buildUserDataScript cfg githubRegistrationToken label)) + 2)
           / 3).
Proof.
  cbn [createLaunchTemplateInput Ec2.LaunchTemplateData Ec2.UserData].
  split; [apply base64_decode_encode |].
  unfold Base64.encode. rewrite base64_encode_bytes_length, length_map.
  f_equal. f_equal. f_equal.
  generalize (Js.join Js.lf (buildUserDataScript cfg githubRegistrationToken label)).
  intros s. induction s as [| c s IH]; cbn; [reflexivity | now rewrite IH].
Qed.

(** X24: When no entry of the boot script contains a line feed, the instance
    reads back exactly the entries: decoding [UserData] and cutting it at
    line feeds gives the script. *)
Theorem user_data_lines_are_script :
  (forall line,
      In line (buildUserDataScript cfg githubRegistrationToken label) ->
      has_char (ascii_of_nat 10) line = false) ->
  Js.split (ascii_of_nat 10)
    (base64_decode
       (Ec2.UserData
          (Ec2.LaunchTemplateData
             (createLaunchTemplateInput cfg aws label githubRegistrationToken))))
    = buildUserDataScript cfg githubRegistrationToken label.
Proof.
  intros Hclean.
  cbn [createLaunchTemplateInput Ec2.LaunchTemplateData Ec2.UserData].
  rewrite base64_decode_encode.
  apply split_join; [| exact Hclean].
  unfold buildUserDataScript, UserData.buildUserDataScript, Js.push.
  destruct (runAsService (input cfg)); intros Hnil;
    apply app_eq_nil in Hnil as [_ Hnil]; discriminate Hnil.
Qed.

End EncodedScript.

Lemma user_data_lines_are_script_witness :
  Js.split (ascii_of_nat 10)
    (base64_decode
       (Ec2.UserData
          (Ec2.LaunchTemplateData
             (createLaunchTemplateInput Fixtures.cfg_fresh_user Fixtures.all_ok
                "label" "token"))))
    = buildUserDataScript Fixtures.cfg_fresh_user "token" "label".
Proof.
  apply (user_data_lines_are_script Fixtures.cfg_fresh_user Fixtures.all_ok "label" "token").
  intros line Hin. cbn in Hin.
  repeat (destruct Hin as [<- | Hin]; [reflexivity |]).
  destruct Hin.
Defined.

(* ================================================================= *)
(** ** The boot script, in general *)

Section ScriptGeneral.

Variable cfg : config.
Variables token label : string.

(** X25: The script always opens with the shebang line and the redirection of
    all output to the log file and the system logger, so the encoded text
    starts with these two lines. *)
Theorem script_opening :
  (exists rest,
      buildUserDataScript cfg token label =
        "#!/bin/bash"
        :: "exec > >(tee /var/log/user-data.log|logger -t user-data -s 2>/dev/console) 2>&1"
        :: rest) /\
  String.prefix
    ("#!/bin/bash" ++ line_feed
       ++ "exec > >(tee /var/log/user-data.log|logger -t user-data -s 2>/dev/console) 2>&1"
       ++ line_feed)
    (Js.join Js.lf (buildUserDataScript cfg token label)) = true.
Proof.
  split.
  - exists (skipn 2 (buildUserDataScript cfg token label)).
    script_cases cfg; reflexivity.
  - script_cases cfg; reflexivity.
Qed.

(** X26: With a runner home directory the third entry is [cd "<dir>"] and no
    directory is created; without one the third entry is
    [mkdir actions-runner && cd actions-runner]. Either way exactly one
    entry changes or creates the working directory. *)
Theorem script_working_directory :
  nth_error (buildUserDataScript cfg token label) 2 =
    Some (if Js.truthy (runnerHomeDir (input cfg))
          then ("cd " ++ double_quote ++ Js.to_str (runnerHomeDir (input cfg))
                  ++ double_quote)%string
          else "mkdir actions-runner && cd actions-runner") /\
  count is_cd (buildUserDataScript cfg token label) =
    (if Js.truthy (runnerHomeDir (input cfg)) then 1 else 0) /\
  count is_mkdir (buildUserDataScript cfg token label) =
    (if Js.truthy (runnerHomeDir (input cfg)) then 0 else 1).
Proof.
  script_cases cfg; repeat split.
Qed.

(** X27: Running as root is allowed by the entry
    [export RUNNER_ALLOW_RUNASROOT=1], exactly that text and exactly once,
    right before the registration command
    [./config.sh --url https://github.com/<owner>/<repo> --token <token> --labels <label>],
    in every configuration. *)
Theorem allow_root_precedes_register :
  (exists before after,
      buildUserDataScript cfg token label =
        before
        ++ [ "export RUNNER_ALLOW_RUNASROOT=1";
             ("./config.sh --url https://github.com/" ++ owner (githubContext cfg) ++ "/"
             ++ repo (githubContext cfg) ++ " --token " ++ token ++ " --labels " ++ label)%string ]
        ++ after) /\
  count (String.eqb "export RUNNER_ALLOW_RUNASROOT=1")
    (buildUserDataScript cfg token label) = 1 /\
  count is_allow_root (buildUserDataScript cfg token label) = 1.
Proof.
  split.
  - destruct (Js.truthy (runnerHomeDir (input cfg))) eqn:Hhome.
    + exists (firstn 5 (buildUserDataScript cfg token label)).
      exists (skipn 7 (buildUserDataScript cfg token label)).
      script_cases cfg; reflexivity.
    + exists (firstn 8 (buildUserDataScript cfg token label)).
      exists (skipn 10 (buildUserDataScript cfg token label)).
      script_cases cfg; reflexivity.
  - script_cases cfg; split; reflexivity.
Qed.

(** X28: The ownership change is there exactly when a user is configured, once,
    as [chown -R <user> .] right after the registration command. *)
Theorem chown_iff_user :
  count is_chown (buildUserDataScript cfg token label) =
    (if Js.truthy (runAsUser (input cfg)) then 1 else 0) /\
  (Js.truthy (runAsUser (input cfg)) = true ->
   exists before after,
     buildUserDataScript cfg token label =
       before
       ++ [ ("./config.sh --url https://github.com/" ++ owner (githubContext cfg) ++ "/"
             ++ repo (githubContext cfg) ++ " --token " ++ token ++ " --labels " ++ label)%string;
            ("chown -R " ++ Js.to_str (runAsUser (input cfg)) ++ " .")%string ]
       ++ after).
Proof.
  split.
  - script_cases cfg; reflexivity.
  - intros Huser.
    destruct (Js.truthy (runnerHomeDir (input cfg))) eqn:Hhome.
    + exists (firstn 6 (buildUserDataScript cfg token label)).
      exists (skipn 8 (buildUserDataScript cfg token label)).
      script_cases cfg; reflexivity.
    + exists (firstn 9 (buildUserDataScript cfg token label)).
      exists (skipn 11 (buildUserDataScript cfg token label)).
      script_cases cfg; reflexivity.
Qed.

(** X29: The runner is started in exactly one way: as a service, by two
    [svc.sh] entries and no run command, or directly, by one run command
    and no [svc.sh] entry. *)
Theorem one_way_to_start :
  count is_service (buildUserDataScript cfg token label) =
    (if runAsService (input cfg) then 2 else 0) /\
  count is_run_command (buildUserDataScript cfg token label) =
    (if runAsService (input cfg) then 0 else 1).
Proof.
  script_cases cfg; split; reflexivity.
Qed.

(** X30: Run directly and without a user, the script ends with the bare run
    command, a blank in front of [./run.sh], and switches to no user and
    changes no ownership. *)
Theorem bare_run_without_user :
  runAsService (input cfg) = false ->
  Js.truthy (runAsUser (input cfg)) = false ->
  last (buildUserDataScript cfg token label) EmptyString = " ./run.sh" /\
  count is_su (buildUserDataScript cfg token label) = 0 /\
  count is_chown (buildUserDataScript cfg token label) = 0.
Proof.
  intros Hsvc Huser. script_cases cfg; repeat split.
Qed.

(** The number of entries: seven with a runner home directory and ten
    without, one more with a user, and two more as a service or else one. *)
Theorem script_length :
  length (buildUserDataScript cfg token label) =
    (if Js.truthy (runnerHomeDir (input cfg)) then 7 else 10)
    + (if Js.truthy (runAsUser (input cfg)) then 1 else 0)
    + (if runAsService (input cfg) then 2 else 1).
Proof.
  script_cases cfg; reflexivity.
Qed.

End ScriptGeneral.

Lemma chown_iff_user_witness :
  Js.truthy (runAsUser (input Fixtures.cfg_fresh_user)) = true /\
  exists before after,
    buildUserDataScript Fixtures.cfg_fresh_user "token" "label" =
      before
      ++ [ "./config.sh --url https://github.com/o/r --token token --labels label";
           "chown -R ubuntu ." ]
      ++ after.
Proof.
  split; [reflexivity |].
  apply (proj2 (chown_iff_user Fixtures.cfg_fresh_user "token" "label")).
  reflexivity.
Defined.

Lemma bare_run_without_user_witness :
  runAsService (input Fixtures.cfg_ids) = false /\
  Js.truthy (runAsUser (input Fixtures.cfg_ids)) = false /\
  last (buildUserDataScript Fixtures.cfg_ids "token" "label") EmptyString = " ./run.sh".
Proof.
  split; [reflexivity | split; [reflexivity |]].
  apply (bare_run_without_user Fixtures.cfg_ids "token" "label"); reflexivity.
Defined.
